(** * Currency converter front end: state and control logic of [src/App.jsx]

    The React component [App] is embedded as explicit state passing: the
    [useState] cells form a record, every handler is a computation in a
    small state-and-exception monad that also records the effects it
    performs (network calls, console output, alerts), and the two
    [await] points split the asynchronous functions into the part that runs
    before the request and the part that runs when it settles. *)

From Stdlib Require Import ZArith List String Ascii Bool Lia PeanoNat.
From Stdlib Require Import Floats.SpecFloat.
From Stdlib Require Import DecimalString Permutation Sorted.
Import ListNotations.
Set Warnings "-register-all".
Local Open Scope string_scope.
Local Open Scope Z_scope.
Local Open Scope list_scope.

(** ** JavaScript values *)

Module JS.

(** A Number is an IEEE 754 binary64 value. *)
Definition prec : Z := 53.
Definition emax : Z := 1024.
Definition number := spec_float.

Definition NaN : number := S754_nan.
Definition Infinity : number := S754_infinity false.
Definition pos_zero : number := S754_zero false.

(** Values as they come out of [JSON.parse], a response body or a literal.
    A string is held as its WTF-8 text: UTF-8, a surrogate that has no
    partner being written as the three bytes of its code. *)
Inductive value : Type :=
| VUndefined
| VNull
| VBool (b : bool)
| VNum (x : number)
| VStr (s : string)
| VArr (items : list value)
| VObj (fields : list (string * value)).

(** [isNaN] on a Number. *)
Definition isNaN (x : number) : bool :=
  match x with S754_nan => true | _ => false end.

Definition isFinite (x : number) : bool :=
  match x with S754_zero _ | S754_finite _ _ _ => true | _ => false end.

(** *** [Number(string)]: the StringToNumber grammar *)

Definition byte_of (c : ascii) : Z := Z.of_N (N_of_ascii c).

Definition ascii_of_byte (n : Z) : ascii := ascii_of_N (Z.to_N n).

(** StrWhiteSpaceChar in one byte: TAB, LF, VT, FF, CR, SP. *)
Definition white_space_1 (x : Z) : bool :=
  existsb (Z.eqb x) [9; 10; 11; 12; 13; 32].

(** NBSP, U+00A0. *)
Definition white_space_2 (x y : Z) : bool := (x =? 194) && (y =? 160).

(** U+1680, U+2000 to U+200A, LS, PS, U+202F, U+205F, U+3000 and the
    byte order mark U+FEFF. *)
Definition white_space_3 (x y z : Z) : bool :=
  ((x =? 225) && (y =? 154) && (z =? 128))
  || ((x =? 226) && (y =? 128)
      && (((128 <=? z) && (z <=? 138)) || existsb (Z.eqb z) [168; 169; 175]))
  || ((x =? 226) && (y =? 129) && (z =? 159))
  || ((x =? 227) && (y =? 128) && (z =? 128))
  || ((x =? 239) && (y =? 187) && (z =? 191)).

(** The text without the StrWhiteSpaceChars it starts with. *)
Fixpoint strip_front (l : list ascii) : list ascii :=
  match l with
  | [] => []
  | a :: r =>
      if white_space_1 (byte_of a) then strip_front r
      else
        match r with
        | b :: r1 =>
            if white_space_2 (byte_of a) (byte_of b) then strip_front r1
            else
              match r1 with
              | c :: r2 =>
                  if white_space_3 (byte_of a) (byte_of b) (byte_of c)
                  then strip_front r2
                  else l
              | [] => l
              end
        | [] => l
        end
  end.

(** The same from the end, on the reversed text. *)
Fixpoint strip_back_rev (l : list ascii) : list ascii :=
  match l with
  | [] => []
  | c :: r =>
      if white_space_1 (byte_of c) then strip_back_rev r
      else
        match r with
        | b :: r1 =>
            if white_space_2 (byte_of b) (byte_of c) then strip_back_rev r1
            else
              match r1 with
              | a :: r2 =>
                  if white_space_3 (byte_of a) (byte_of b) (byte_of c)
                  then strip_back_rev r2
                  else l
              | [] => l
              end
        | [] => l
        end
  end.

Fixpoint dropWhile {A} (p : A -> bool) (l : list A) : list A :=
  match l with
  | [] => []
  | x :: r => if p x then dropWhile p r else l
  end.

Definition trim (l : list ascii) : list ascii :=
  rev (strip_back_rev (rev (strip_front l))).

(** The text holds StrWhiteSpaceChars only. *)
Definition white_space_only (s : string) : bool :=
  match strip_front (list_ascii_of_string s) with
  | [] => true
  | _ => false
  end.

(** *** Code points and code units of a string *)

(** The text cut into its code points. *)
Fixpoint code_points (l : list ascii) : list string :=
  match l with
  | [] => []
  | a :: r =>
      if byte_of a <? 192 then string_of_list_ascii [a] :: code_points r
      else
        match r with
        | [] => [string_of_list_ascii [a]]
        | b :: r1 =>
            if byte_of a <? 224
            then string_of_list_ascii [a; b] :: code_points r1
            else
              match r1 with
              | [] => [string_of_list_ascii [a; b]]
              | c :: r2 =>
                  if byte_of a <? 240
                  then string_of_list_ascii [a; b; c] :: code_points r2
                  else
                    match r2 with
                    | [] => [string_of_list_ascii [a; b; c]]
                    | d :: r3 =>
                        string_of_list_ascii [a; b; c; d] :: code_points r3
                    end
              end
        end
  end.

(** The bytes of a code unit, a surrogate among them. *)
Definition encode_unit (n : Z) : list ascii :=
  if n <? 128 then [ascii_of_byte n]
  else if n <? 2048 then
    [ascii_of_byte (192 + n / 64); ascii_of_byte (128 + n mod 64)]
  else
    [ascii_of_byte (224 + n / 4096);
     ascii_of_byte (128 + (n / 64) mod 64);
     ascii_of_byte (128 + n mod 64)].

(** The bytes of a code point above U+FFFF. *)
Definition encode_astral (cp : Z) : list ascii :=
  [ascii_of_byte (240 + cp / 262144);
   ascii_of_byte (128 + (cp / 4096) mod 64);
   ascii_of_byte (128 + (cp / 64) mod 64);
   ascii_of_byte (128 + cp mod 64)].

(** A code point as one code unit, or as its two surrogates. *)
Definition units_of_code_point (s : string) : list string :=
  match list_ascii_of_string s with
  | [a; b; c; d] =>
      let cp := (byte_of a - 240) * 262144 + (byte_of b - 128) * 4096
                + (byte_of c - 128) * 64 + (byte_of d - 128) in
      [string_of_list_ascii (encode_unit (55296 + (cp - 65536) / 1024));
       string_of_list_ascii (encode_unit (56320 + (cp - 65536) mod 1024))]
  | _ => [s]
  end.

(** The text cut into its UTF-16 code units. *)
Definition code_units (l : list ascii) : list string :=
  flat_map units_of_code_point (code_points l).

(** A high surrogate directly followed by a low one is one code point. *)
Fixpoint join_surrogates (l : list ascii) : list ascii :=
  match l with
  | [] => []
  | a :: t =>
      match t with
      | b :: c :: d :: e :: f :: r =>
          if (byte_of a =? 237) && (160 <=? byte_of b) && (byte_of b <? 176)
             && (byte_of d =? 237) && (176 <=? byte_of e)
          then
            let hi := (byte_of b - 160) * 64 + (byte_of c - 128) in
            let lo := (byte_of e - 176) * 64 + (byte_of f - 128) in
            encode_astral (65536 + hi * 1024 + lo) ++ join_surrogates r
          else a :: join_surrogates t
      | _ => a :: join_surrogates t
      end
  end.

(** Value of a digit in the given base, letters in either case. *)
Definition digit_val (base : Z) (c : ascii) : option Z :=
  let n := Z.of_N (N_of_ascii c) in
  let d :=
    if (48 <=? n) && (n <=? 57) then Some (n - 48)
    else if (97 <=? n) && (n <=? 102) then Some (n - 87)
    else if (65 <=? n) && (n <=? 70) then Some (n - 55)
    else None in
  match d with
  | Some v => if v <? base then Some v else None
  | None => None
  end.

(** Longest prefix of digits, most significant first, and the rest. *)
Fixpoint span_digits (base : Z) (l : list ascii) : list Z * list ascii :=
  match l with
  | [] => ([], [])
  | c :: r =>
      match digit_val base c with
      | Some d => let '(ds, rest) := span_digits base r in (d :: ds, rest)
      | None => ([], l)
      end
  end.

Definition digits_value (base : Z) (ds : list Z) : Z :=
  fold_left (fun acc d => acc * base + d) ds 0.

Definition is_nil {A} (l : list A) : bool :=
  match l with [] => true | _ => false end.

(** The nearest binary64 to [(-1)^neg * m * 10^e], ties to even. *)
Definition round_decimal (neg : bool) (m e : Z) : number :=
  if m =? 0 then S754_zero neg
  else if 0 <=? e then
    binary_normalize prec emax (cond_Zopp neg (m * 10 ^ e)) 0 neg
  else
    let '(q, e', l) := SFdiv_core_binary prec emax m 0 (10 ^ (- e)) 0 in
    binary_round_aux prec emax neg q e' l.

(** NonDecimalIntegerLiteral: [0x], [0o] or [0b] and at least one digit. *)
Definition parse_nondecimal (l : list ascii) : option Z :=
  match l with
  | "0"%char :: p :: r =>
      let base :=
        if (Ascii.eqb p "x" || Ascii.eqb p "X")%char then Some 16
        else if (Ascii.eqb p "o" || Ascii.eqb p "O")%char then Some 8
        else if (Ascii.eqb p "b" || Ascii.eqb p "B")%char then Some 2
        else None in
      match base with
      | Some b =>
          let '(ds, rest) := span_digits b r in
          if is_nil ds || negb (is_nil rest) then None
          else Some (digits_value b ds)
      | None => None
      end
  | _ => None
  end.

(** ExponentPart, optional, up to the end of the literal. *)
Definition parse_exponent (l : list ascii) : option Z :=
  match l with
  | [] => Some 0
  | c :: r =>
      if (Ascii.eqb c "e" || Ascii.eqb c "E")%char then
        let '(neg, r') :=
          match r with
          | "+"%char :: t => (false, t)
          | "-"%char :: t => (true, t)
          | _ => (false, r)
          end in
        let '(ds, rest) := span_digits 10 r' in
        if is_nil ds || negb (is_nil rest) then None
        else Some (cond_Zopp neg (digits_value 10 ds))
      else None
  end.

(** StrUnsignedDecimalLiteral without [Infinity]: mantissa and exponent. *)
Definition parse_unsigned_decimal (l : list ascii) : option (Z * Z) :=
  let '(ip, r1) := span_digits 10 l in
  let '(fp, r2) :=
    match r1 with
    | "."%char :: r => span_digits 10 r
    | _ => ([], r1)
    end in
  if is_nil ip && is_nil fp then None
  else
    match parse_exponent r2 with
    | Some ex =>
        Some (digits_value 10 (ip ++ fp), ex - Z.of_nat (List.length fp))
    | None => None
    end.

Definition StringToNumber (s : string) : number :=
  let l := trim (list_ascii_of_string s) in
  if is_nil l then pos_zero
  else
    match parse_nondecimal l with
    | Some n => round_decimal false n 0
    | None =>
        let '(neg, r) :=
          match l with
          | "+"%char :: t => (false, t)
          | "-"%char :: t => (true, t)
          | _ => (false, l)
          end in
        if String.eqb (string_of_list_ascii r) "Infinity"
        then S754_infinity neg
        else
          match parse_unsigned_decimal r with
          | Some (m, e) => round_decimal neg m e
          | None => NaN
          end
    end.

(** [Number(s)] for a string argument. *)
Definition Number (s : string) : number := StringToNumber s.

Arguments round_decimal : simpl never.
Arguments StringToNumber : simpl never.
Arguments Number : simpl never.

(** *** Completions: normal or abrupt by [throw] *)

Inductive completion (A : Type) : Type :=
| Normal (a : A)
| Throw (e : value).
Arguments Normal {A} a.
Arguments Throw {A} e.

Definition c_bind {A B} (c : completion A) (k : A -> completion B)
  : completion B :=
  match c with
  | Normal a => k a
  | Throw e => Throw e
  end.

(** [try { c } catch (e) { h e }] for a computation without state. *)
Definition c_try {A} (c : completion A) (h : value -> completion A)
  : completion A :=
  match c with
  | Normal a => Normal a
  | Throw e => h e
  end.

Definition TypeError (msg : string) : value :=
  VObj [("name", VStr "TypeError"); ("message", VStr msg)].

(** *** Operators used by the component *)

(** ToBoolean. *)
Definition truthy (v : value) : bool :=
  match v with
  | VUndefined | VNull => false
  | VBool b => b
  | VNum (S754_zero _) | VNum S754_nan => false
  | VNum _ => true
  | VStr s => negb (String.eqb s "")
  | VArr _ | VObj _ => true
  end.

(** [a || b]. *)
Definition or_else (a b : value) : value := if truthy a then a else b.

Fixpoint lookup (k : string) (fields : list (string * value)) : option value :=
  match fields with
  | [] => None
  | (k', v) :: r => if String.eqb k k' then Some v else lookup k r
  end.

(** Property read [v.k], for the keys the component reads ([data], [result],
    [rate], [fetchedAt]): none of them names a property of a primitive
    wrapper or of [Array.prototype], so only an object can hold one, and
    reading from [null] or [undefined] throws. *)
Definition get_field (v : value) (k : string) : completion value :=
  match v with
  | VUndefined | VNull => Throw (TypeError "Cannot read properties")
  | VObj fields =>
      match lookup k fields with
      | Some x => Normal x
      | None => Normal VUndefined
      end
  | _ => Normal VUndefined
  end.

(** The elements [...v] contributes to an array literal: arrays and strings
    are iterable (a string by code points), anything else throws. *)
Definition spread (v : value) : completion (list value) :=
  match v with
  | VArr items => Normal items
  | VStr s => Normal (map VStr (code_points (list_ascii_of_string s)))
  | _ => Throw (TypeError "not iterable")
  end.

(** [a.slice(0, n)]. *)
Definition slice0 (n : nat) (a : list value) : list value := firstn n a.

End JS.

Import JS.

(** ** A reference [JSON.parse]

    The hook below is stated for any [JSON.parse]; this parser of JSON
    texts (object fields kept in order of first occurrence) is the instance
    the examples run. *)

Module JSON.

Definition SyntaxError : value :=
  VObj [("name", VStr "SyntaxError")].

Definition dquote : ascii := ascii_of_N 34.
Definition backslash : ascii := ascii_of_N 92.

Definition is_ws (c : ascii) : bool :=
  existsb (N.eqb (N_of_ascii c)) [9; 10; 13; 32]%N.

Definition skip_ws (l : list ascii) : list ascii := dropWhile is_ws l.

Definition escape (c : ascii) : option ascii :=
  if Ascii.eqb c dquote then Some dquote
  else if Ascii.eqb c backslash then Some backslash
  else if Ascii.eqb c "/" then Some "/"%char
  else if Ascii.eqb c "b" then Some (ascii_of_N 8)
  else if Ascii.eqb c "f" then Some (ascii_of_N 12)
  else if Ascii.eqb c "n" then Some (ascii_of_N 10)
  else if Ascii.eqb c "r" then Some (ascii_of_N 13)
  else if Ascii.eqb c "t" then Some (ascii_of_N 9)
  else None.

Definition hex4 (a b c d : ascii) : option Z :=
  match digit_val 16 a, digit_val 16 b, digit_val 16 c, digit_val 16 d with
  | Some x, Some y, Some z, Some w => Some (digits_value 16 [x; y; z; w])
  | _, _, _, _ => None
  end.

Definition cons_chars (cs : list ascii) (p : option (list ascii * list ascii))
  : option (list ascii * list ascii) :=
  match p with
  | Some (s, r) => Some (cs ++ s, r)
  | None => None
  end.

(** The characters of a string literal after its opening quote, an escape
    [\uXXXX] giving the bytes of its code unit. *)
Fixpoint parse_chars_raw (l : list ascii) : option (list ascii * list ascii) :=
  match l with
  | [] => None
  | c :: r =>
      if Ascii.eqb c dquote then Some ([], r)
      else if Ascii.eqb c backslash then
        match r with
        | [] => None
        | e :: r' =>
            if Ascii.eqb e "u" then
              match r' with
              | h1 :: h2 :: h3 :: h4 :: r'' =>
                  match hex4 h1 h2 h3 h4 with
                  | Some n => cons_chars (encode_unit n) (parse_chars_raw r'')
                  | None => None
                  end
              | _ => None
              end
            else
              match escape e with
              | Some ch => cons_chars [ch] (parse_chars_raw r')
              | None => None
              end
        end
      else if (N_of_ascii c <? 32)%N then None
      else cons_chars [c] (parse_chars_raw r)
  end.

(** The string of the literal: surrogates that meet, escaped or not,
    make one code point. *)
Definition parse_chars (l : list ascii) : option (string * list ascii) :=
  match parse_chars_raw l with
  | Some (s, r) => Some (string_of_list_ascii (join_surrogates s), r)
  | None => None
  end.

(** A number token: [-? int frac? exp?], no leading zero. *)
Definition parse_number (l : list ascii) : option (value * list ascii) :=
  let '(neg, r0) :=
    match l with
    | "-"%char :: t => (true, t)
    | _ => (false, l)
    end in
  let '(ip, r1) := span_digits 10 r0 in
  let int_ok :=
    match ip with
    | [] => false
    | d :: ds => negb ((d =? 0) && negb (is_nil ds))
    end in
  let '(fp, r2, frac_ok) :=
    match r1 with
    | "."%char :: t =>
        let '(fp, r2) := span_digits 10 t in (fp, r2, negb (is_nil fp))
    | _ => ([], r1, true)
    end in
  let '(ex, r3, exp_ok) :=
    match r2 with
    | c :: t =>
        if (Ascii.eqb c "e" || Ascii.eqb c "E")%char then
          let '(eneg, t') :=
            match t with
            | "+"%char :: u => (false, u)
            | "-"%char :: u => (true, u)
            | _ => (false, t)
            end in
          let '(ds, r3) := span_digits 10 t' in
          (cond_Zopp eneg (digits_value 10 ds), r3, negb (is_nil ds))
        else (0, r2, true)
    | [] => (0, r2, true)
    end in
  if int_ok && frac_ok && exp_ok then
    Some (VNum (round_decimal neg (digits_value 10 (ip ++ fp))
                  (ex - Z.of_nat (List.length fp))), r3)
  else None.

Fixpoint strip_prefix (p l : list ascii) : option (list ascii) :=
  match p, l with
  | [], _ => Some l
  | a :: p', b :: l' => if Ascii.eqb a b then strip_prefix p' l' else None
  | _ :: _, [] => None
  end.

Definition parser (A : Type) := list ascii -> option (A * list ascii).

(** Elements after [[], up to and including the closing bracket. *)
Fixpoint parse_elements (pv : parser value) (fuel : nat) (l : list ascii)
  : option (list value * list ascii) :=
  match fuel with
  | O => None
  | S n =>
      match pv l with
      | Some (v, r) =>
          match skip_ws r with
          | c :: r' =>
              if Ascii.eqb c "," then
                match parse_elements pv n r' with
                | Some (vs, r'') => Some (v :: vs, r'')
                | None => None
                end
              else if Ascii.eqb c "]" then Some ([v], r')
              else None
          | [] => None
          end
      | None => None
      end
  end.

(** A later member of the same name replaces the earlier one. *)
Fixpoint set_field (k : string) (v : value) (fields : list (string * value))
  : list (string * value) :=
  match fields with
  | [] => [(k, v)]
  | (k', v') :: r =>
      if String.eqb k k' then (k, v) :: r else (k', v') :: set_field k v r
  end.

(** Members after [{], up to and including the closing brace. *)
Fixpoint parse_members (pv : parser value) (fuel : nat)
  (acc : list (string * value)) (l : list ascii)
  : option (list (string * value) * list ascii) :=
  match fuel with
  | O => None
  | S n =>
      match skip_ws l with
      | q :: r =>
          if Ascii.eqb q dquote then
            match parse_chars r with
            | Some (k, r1) =>
                match skip_ws r1 with
                | c :: r2 =>
                    if Ascii.eqb c ":" then
                      match pv r2 with
                      | Some (v, r3) =>
                          let acc' := set_field k v acc in
                          match skip_ws r3 with
                          | d :: r4 =>
                              if Ascii.eqb d "," then parse_members pv n acc' r4
                              else if Ascii.eqb d "}" then Some (acc', r4)
                              else None
                          | [] => None
                          end
                      | None => None
                      end
                    else None
                | [] => None
                end
            | None => None
            end
          else None
      | [] => None
      end
  end.

Definition literal (name : string) (v : value) (l : list ascii)
  : option (value * list ascii) :=
  match strip_prefix (list_ascii_of_string name) l with
  | Some r => Some (v, r)
  | None => None
  end.

Fixpoint parse_value (fuel : nat) (l : list ascii) {struct fuel}
  : option (value * list ascii) :=
  match fuel with
  | O => None
  | S n =>
      match skip_ws l with
      | [] => None
      | c :: r =>
          if Ascii.eqb c "[" then
            match skip_ws r with
            | "]"%char :: r' => Some (VArr [], r')
            | _ =>
                match parse_elements (parse_value n) n r with
                | Some (vs, r') => Some (VArr vs, r')
                | None => None
                end
            end
          else if Ascii.eqb c "{" then
            match skip_ws r with
            | "}"%char :: r' => Some (VObj [], r')
            | _ =>
                match parse_members (parse_value n) n [] r with
                | Some (fs, r') => Some (VObj fs, r')
                | None => None
                end
            end
          else if Ascii.eqb c dquote then
            match parse_chars r with
            | Some (s, r') => Some (VStr s, r')
            | None => None
            end
          else if Ascii.eqb c "t" then literal "true" (VBool true) (c :: r)
          else if Ascii.eqb c "f" then literal "false" (VBool false) (c :: r)
          else if Ascii.eqb c "n" then literal "null" VNull (c :: r)
          else parse_number (c :: r)
      end
  end.

Definition parse (s : string) : completion value :=
  let l := list_ascii_of_string s in
  match parse_value (S (List.length l)) l with
  | Some (v, r) => if is_nil (skip_ws r) then Normal v else Throw SyntaxError
  | None => Throw SyntaxError
  end.

End JSON.

(** ** [useLocalStorage(key, initialValue)] *)

Section UseLocalStorage.

(** The browser side of the hook: [window.localStorage.getItem] answers
    [null] or a string, or throws; [setItem], [JSON.parse] and
    [JSON.stringify] complete normally or throw. *)
Variable getItem : string -> completion (option string).
Variable setItem : string -> string -> completion unit.
Variable JSON_parse : string -> completion value.
Variable JSON_stringify : value -> completion string.

(** The body of the [try] block of the state initialiser:
    [item ? JSON.parse(item) : initialValue]. *)
Definition read_item (key : string) (initialValue : value)
  : completion value :=
  c_bind (getItem key) (fun item =>
    match item with
    | Some s => if truthy (VStr s) then JSON_parse s else Normal initialValue
    | None => Normal initialValue
    end).

(** The lazy initialiser passed to [useState]. *)
Definition useLocalStorage_init (key : string) (initialValue : value)
  : completion value :=
  c_try (read_item key initialValue) (fun _ => Normal initialValue).

(** The effect that runs when [key] or [value] changes:
    [try { setItem(key, JSON.stringify(value)) } catch {}]. *)
Definition useLocalStorage_effect (key : string) (v : value)
  : completion unit :=
  c_try (c_bind (JSON_stringify v) (fun s => setItem key s))
        (fun _ => Normal tt).

End UseLocalStorage.

(** ** The component state *)

(** One field per [useState] cell of [App] (lines 23-32). *)
Record AppState : Type := mkApp {
  currencies : value;
  from : string;
  to : string;
  amount : string;
  result : value;
  rate : value;
  loading : bool;
  loadingCurrencies : bool;
  history : value
}.

Definition history_key : string := "cc_history_v1".

(** [useLocalStorage('cc_history_v1', [])] (line 32): the value the history
    state starts with, and the effect that saves it. *)
Definition load_history (getItem : string -> completion (option string))
  (JSON_parse : string -> completion value) : completion value :=
  useLocalStorage_init getItem JSON_parse history_key (VArr []).

Definition save_history (setItem : string -> string -> completion unit)
  (JSON_stringify : value -> completion string) (v : value)
  : completion unit :=
  useLocalStorage_effect setItem JSON_stringify history_key v.

(** The state of the first render, [stored] being what the history hook's
    initialiser returned. *)
Definition initial_state (stored : value) : AppState :=
  {| currencies := VObj [];
     from := "USD";
     to := "PKR";
     amount := "1";
     result := VNull;
     rate := VNull;
     loading := false;
     loadingCurrencies := true;
     history := stored |}.

Definition set_currencies (v : value) (s : AppState) : AppState :=
  mkApp v (from s) (to s) (amount s) (result s) (rate s) (loading s)
        (loadingCurrencies s) (history s).
Definition set_from (v : string) (s : AppState) : AppState :=
  mkApp (currencies s) v (to s) (amount s) (result s) (rate s) (loading s)
        (loadingCurrencies s) (history s).
Definition set_to (v : string) (s : AppState) : AppState :=
  mkApp (currencies s) (from s) v (amount s) (result s) (rate s) (loading s)
        (loadingCurrencies s) (history s).
Definition set_amount (v : string) (s : AppState) : AppState :=
  mkApp (currencies s) (from s) (to s) v (result s) (rate s) (loading s)
        (loadingCurrencies s) (history s).
Definition set_result (v : value) (s : AppState) : AppState :=
  mkApp (currencies s) (from s) (to s) (amount s) v (rate s) (loading s)
        (loadingCurrencies s) (history s).
Definition set_rate (v : value) (s : AppState) : AppState :=
  mkApp (currencies s) (from s) (to s) (amount s) (result s) v (loading s)
        (loadingCurrencies s) (history s).
Definition set_loading (v : bool) (s : AppState) : AppState :=
  mkApp (currencies s) (from s) (to s) (amount s) (result s) (rate s) v
        (loadingCurrencies s) (history s).
Definition set_loadingCurrencies (v : bool) (s : AppState) : AppState :=
  mkApp (currencies s) (from s) (to s) (amount s) (result s) (rate s)
        (loading s) v (history s).
Definition set_history (v : value) (s : AppState) : AppState :=
  mkApp (currencies s) (from s) (to s) (amount s) (result s) (rate s)
        (loading s) (loadingCurrencies s) v.

(** ** Effects and the handler monad *)

Inductive Effect : Type :=
| PreventDefault
| AxiosGet (url : string) (params : list (string * value))
| ConsoleError (e : value)
| Alert (msg : string).

Definition is_request (e : Effect) : bool :=
  match e with
  | AxiosGet _ _ => true
  | _ => false
  end.

(** What running a piece of handler code gives: how it completed, the
    component state it leaves and the effects it performed, oldest first. *)
Record Outcome (A : Type) : Type := mkOutcome {
  completion_of : completion A;
  state_of : AppState;
  effects_of : list Effect
}.
Arguments mkOutcome {A} _ _ _.
Arguments completion_of {A} _.
Arguments state_of {A} _.
Arguments effects_of {A} _.

(** A handler body. State updates made before a throw stay. *)
Definition M (A : Type) : Type := AppState -> Outcome A.

Definition ret {A} (a : A) : M A := fun s => mkOutcome (Normal a) s [].

(** The effects [es] happened before those of [o]. *)
Definition preceded {A} (es : list Effect) (o : Outcome A) : Outcome A :=
  match o with
  | mkOutcome c s es' => mkOutcome c s (es ++ es')
  end.

Definition bind {A B} (m : M A) (k : A -> M B) : M B :=
  fun s =>
    match m s with
    | mkOutcome (Normal a) s' es => preceded es (k a s')
    | mkOutcome (Throw e) s' es => mkOutcome (Throw e) s' es
    end.

Notation "x <- m ;; k" := (bind m (fun x => k))
  (at level 61, m at next level, right associativity).
Notation "m ;; k" := (bind m (fun _ => k))
  (at level 61, right associativity).

Definition lift {A} (c : completion A) : M A := fun s => mkOutcome c s [].

Definition update (f : AppState -> AppState) : M unit :=
  fun s => mkOutcome (Normal tt) (f s) [].

Definition emit (e : Effect) : M unit :=
  fun s => mkOutcome (Normal tt) s [e].

(** [try { m } catch (e) { h e }]. *)
Definition try_catch {A} (m : M A) (h : value -> M A) : M A :=
  fun s =>
    match m s with
    | mkOutcome (Normal a) s' es => mkOutcome (Normal a) s' es
    | mkOutcome (Throw e) s' es => preceded es (h e s')
    end.

(** [try { m } finally { f }]: [f] runs either way; when it completes
    normally the completion of [m] stands. *)
Definition try_finally {A} (m : M A) (f : M unit) : M A :=
  fun s =>
    match m s with
    | mkOutcome c s' es =>
        match f s' with
        | mkOutcome (Normal _) s'' es' => mkOutcome c s'' (es ++ es')
        | mkOutcome (Throw e) s'' es' => mkOutcome (Throw e) s'' (es ++ es')
        end
    end.

Definition setCurrencies v := update (set_currencies v).
Definition setFrom v := update (set_from v).
Definition setTo v := update (set_to v).
Definition setAmount v := update (set_amount v).
Definition setResult v := update (set_result v).
Definition setRate v := update (set_rate v).
Definition setLoading v := update (set_loading v).
Definition setLoadingCurrencies v := update (set_loadingCurrencies v).
Definition setHistory v := update (set_history v).

Definition console_error (e : value) : M unit := emit (ConsoleError e).
Definition alert (msg : string) : M unit := emit (Alert msg).

(** ** The network *)

(** How a request ends: no response at all, or a status and a body. *)
Inductive HttpOutcome : Type :=
| NetworkError (err : value)
| HttpResponse (status : Z) (data : value).

(** The status codes for which axios resolves the request (its default
    [validateStatus]). *)
Definition status_ok (status : Z) : bool :=
  (200 <=? status) && (status <? 300).
Arguments status_ok : simpl never.

Definition AxiosError (status : Z) : value :=
  VObj [("name", VStr "AxiosError");
        ("status", VNum (round_decimal false status 0))].

(** What [await axios.get(..)] completes with: the response object for a
    status in 200..299, a rejection otherwise. *)
Definition axios_settled (o : HttpOutcome) : completion value :=
  match o with
  | NetworkError err => Throw err
  | HttpResponse status data =>
      if status_ok status
      then Normal (VObj [("data", data);
                         ("status", VNum (round_decimal false status 0))])
      else Throw (AxiosError status)
  end.

(** ** The handlers of [App] *)

(** What a handler closes over: the values of the render it belongs to. *)
Record Render : Type := mkRender {
  r_from : string;
  r_to : string;
  r_amount : string;
  r_history : value
}.

Definition render (s : AppState) : Render :=
  mkRender (from s) (to s) (amount s) (history s).

(** [disabled={loading || loadingCurrencies}] on the submit and swap
    buttons (lines 105 and 118). *)
Definition submit_disabled (s : AppState) : bool :=
  loading s || loadingCurrencies s.

Definition failure_notice : string := "Conversion failed. Please try again.".

Section Handlers.

(** [import.meta.env.VITE_API_BASE]: a string when set at build time. *)
Variable VITE_API_BASE : option string.

Definition API_BASE : string :=
  match VITE_API_BASE with
  | Some s => if truthy (VStr s) then s else "http://localhost:5174"
  | None => "http://localhost:5174"
  end.

(** [onSwap] (lines 56-58). *)
Definition onSwap (r : Render) : M unit :=
  setFrom (r_to r) ;; setTo (r_from r) ;; setResult VNull ;; setRate VNull.

(** The history entry built on line 70. *)
Definition make_record (id : string) (r : Render) (res rt fetchedAt : value)
  : value :=
  VObj [("id", VStr id);
        ("from", VStr (r_from r));
        ("to", VStr (r_to r));
        ("amount", VNum (Number (r_amount r)));
        ("result", res);
        ("rate", rt);
        ("at", fetchedAt)].

Definition convert_params (r : Render) : list (string * value) :=
  [("from", VStr (r_from r));
   ("to", VStr (r_to r));
   ("amount", VNum (Number (r_amount r)))].

(** [onConvert] up to its [await] (lines 60-67); the answer tells whether
    a request was issued and the function is now suspended. *)
Definition onConvert_submit (r : Render) : M bool :=
  emit PreventDefault ;;
  if negb (truthy (VStr (r_amount r))) || isNaN (Number (r_amount r))
  then ret false
  else
    setLoading true ;; setResult VNull ;; setRate VNull ;;
    emit (AxiosGet (String.append API_BASE "/api/convert")
                   (convert_params r)) ;;
    ret true.

(** [onConvert] from the moment the request settles with [o] (lines
    65-77); [uuid] is what [crypto.randomUUID()] returns when called. *)
Definition onConvert_settle (r : Render) (uuid : string) (o : HttpOutcome)
  : M unit :=
  try_finally
    (try_catch
       (resp <- lift (axios_settled o) ;;
        data <- lift (get_field resp "data") ;;
        res <- lift (get_field data "result") ;;
        rt <- lift (get_field data "rate") ;;
        fetchedAt <- lift (get_field data "fetchedAt") ;;
        setResult res ;; setRate rt ;;
        let record := make_record uuid r res rt fetchedAt in
        items <- lift (spread (r_history r)) ;;
        setHistory (VArr (slice0 50 (record :: items))))
       (fun e => console_error e ;; alert failure_notice))
    (setLoading false).

(** The click handler of the Clear button (line 141). *)
Definition onClear : M unit := setHistory (VArr []).

(** [fetchCurrencies] up to its [await] (lines 42-44). *)
Definition fetchCurrencies_start : M unit :=
  setLoadingCurrencies true ;;
  emit (AxiosGet (String.append API_BASE "/api/currencies") []).

(** [fetchCurrencies] from the moment the request settles (lines 44-50);
    [cancelled] is the flag of the effect at that moment. *)
Definition fetchCurrencies_settle (cancelled : bool) (o : HttpOutcome)
  : M unit :=
  try_finally
    (try_catch
       (resp <- lift (axios_settled o) ;;
        if negb cancelled then
          payload <- lift (get_field resp "data") ;;
          d <- lift (get_field payload "data") ;;
          setCurrencies (or_else d (VObj []))
        else ret tt)
       (fun e => console_error e))
    (if negb cancelled then setLoadingCurrencies false else ret tt).

(** ** The mounted component as a transition system *)

Record System : Type := mkSystem {
  app : AppState;
  (** every effect performed since the mount, oldest first *)
  trace : list Effect;
  (** suspended [onConvert] calls, oldest first *)
  inflight : list Render;
  (** the catalog request has not settled yet *)
  catalog_pending : bool;
  (** the [cancelled] variable of the mount effect *)
  cancelled : bool
}.

Inductive Action : Type :=
| ChangeAmount (v : string)
| ChangeFrom (v : string)
| ChangeTo (v : string)
| Swap
| Submit
| Clear
| ConvertSettles (k : nat) (uuid : string) (o : HttpOutcome)
| CatalogSettles (o : HttpOutcome)
| Unmount.

Fixpoint remove_nth {A} (k : nat) (l : list A) : list A :=
  match k, l with
  | _, [] => []
  | O, _ :: r => r
  | S k', x :: r => x :: remove_nth k' r
  end.

(** The system after a handler body has run on its state. *)
Definition after {A} (m : M A) (s : System) : System :=
  match m (app s) with
  | mkOutcome _ st es =>
      mkSystem st (trace s ++ es)
               (inflight s) (catalog_pending s) (cancelled s)
  end.

(** The first render, and the mount effect starting the catalog fetch. *)
Definition mount (stored : value) : System :=
  after fetchCurrencies_start
        (mkSystem (initial_state stored) [] [] true false).

(** One event: the handler of the latest render runs on the current
    state; a settling request resumes the call that issued it. *)
Definition step (a : Action) (s : System) : System :=
  match a with
  | ChangeAmount v => after (setAmount v) s
  | ChangeFrom v => after (setFrom v) s
  | ChangeTo v => after (setTo v) s
  | Swap => after (onSwap (render (app s))) s
  | Clear => after onClear s
  | Submit =>
      let r := render (app s) in
      let s' := after (onConvert_submit r) s in
      match completion_of (onConvert_submit r (app s)) with
      | Normal true =>
          mkSystem (app s') (trace s') (inflight s ++ [r])
                   (catalog_pending s) (cancelled s)
      | _ => s'
      end
  | ConvertSettles k uuid o =>
      match nth_error (inflight s) k with
      | Some r =>
          let s' := after (onConvert_settle r uuid o) s in
          mkSystem (app s') (trace s') (remove_nth k (inflight s))
                   (catalog_pending s) (cancelled s)
      | None => s
      end
  | CatalogSettles o =>
      if catalog_pending s then
        let s' := after (fetchCurrencies_settle (cancelled s) o) s in
        mkSystem (app s') (trace s') (inflight s) false (cancelled s)
      else s
  | Unmount =>
      mkSystem (app s) (trace s) (inflight s) (catalog_pending s) true
  end.

Definition run (acts : list Action) (s : System) : System :=
  fold_left (fun s a => step a s) acts s.

End Handlers.

(** ** Events as the rendered view lets them through *)

(** Whether the view of state [s] can deliver the event: the submit and
    swap buttons carry [disabled={loading || loadingCurrencies}] (lines 105
    and 118), the two selects [disabled={loadingCurrencies}] (lines 98 and
    109), and an unmounted view delivers nothing; a settling request does
    not go through the view. *)
Definition enabled (a : Action) (s : System) : bool :=
  match a with
  | Submit | Swap => negb (cancelled s) && negb (submit_disabled (app s))
  | ChangeFrom _ | ChangeTo _ =>
      negb (cancelled s) && negb (loadingCurrencies (app s))
  | ChangeAmount _ | Clear => negb (cancelled s)
  | Unmount => negb (cancelled s)
  | ConvertSettles _ _ _ | CatalogSettles _ => true
  end.

Definition ui_step (env : option string) (a : Action) (s : System) : System :=
  if enabled a s then step env a s else s.

Definition ui_run (env : option string) (acts : list Action) (s : System)
  : System :=
  fold_left (fun s a => ui_step env a s) acts s.

(** Nothing in flight, or one request in flight and [loading] set. *)
Definition one_at_a_time (s : System) : Prop :=
  inflight s = []
  \/ exists r, inflight s = [r] /\ loading (app s) = true.

(** The length of the log when it is an array. *)
Definition log_length (h : value) : option nat :=
  match h with
  | VArr items => Some (List.length items)
  | _ => None
  end.

(** The log is an array of at most [n] entries. *)
Definition log_within (n : nat) (h : value) : Prop :=
  match h with
  | VArr items => (List.length items <= n)%nat
  | _ => False
  end.

(** [v.k] for a [v] that is neither [null] nor [undefined]. *)
Definition field (k : string) (v : value) : value :=
  match get_field v k with
  | Normal x => x
  | Throw _ => VUndefined
  end.

Definition nullish (v : value) : bool :=
  match v with
  | VUndefined | VNull => true
  | _ => false
  end.

(** An amount the guard on line 62 lets through. *)
Definition amount_accepted (a : string) : bool :=
  negb (negb (truthy (VStr a)) || isNaN (Number a)).

(** ** Conversions run one after the other *)

(** One conversion from the user's side: the form is filled in and
    submitted, and the request settles before anything else happens. *)
Record Conversion : Type := mkConversion {
  cv_from : string;
  cv_to : string;
  cv_amount : string;
  cv_uuid : string;
  cv_status : Z;
  cv_data : value
}.

Definition convert_actions (c : Conversion) : list Action :=
  [ChangeFrom (cv_from c); ChangeTo (cv_to c); ChangeAmount (cv_amount c);
   Submit;
   ConvertSettles 0 (cv_uuid c) (HttpResponse (cv_status c) (cv_data c))].

(** The request is issued and answered with a usable payload. *)
Definition cv_successful (c : Conversion) : bool :=
  amount_accepted (cv_amount c) && status_ok (cv_status c)
  && negb (nullish (cv_data c)).

(** The entry line 70 builds for it. *)
Definition cv_entry (c : Conversion) : value :=
  make_record (cv_uuid c)
    (mkRender (cv_from c) (cv_to c) (cv_amount c) VNull)
    (field "result" (cv_data c)) (field "rate" (cv_data c))
    (field "fetchedAt" (cv_data c)).

(** A persisted log of 51 entries, as [JSON.stringify] writes them; the
    entry [n] has the id [x..x] of length [n]. *)
Definition quoted (s : string) : string :=
  String JSON.dquote (String.append s (String JSON.dquote "")).

Definition stored_entry (id : string) : string :=
  String.concat ""
    ["{"; quoted "id"; ":"; quoted id; ",";
     quoted "from"; ":"; quoted "USD"; ",";
     quoted "to"; ":"; quoted "PKR"; ",";
     quoted "amount"; ":1,"; quoted "result"; ":279,"; quoted "rate"; ":279,";
     quoted "at"; ":"; quoted "T0"; "}"].

Definition stored_ids : list string :=
  map (fun n => String.concat "" (repeat "x" n)) (seq 1 51).

Definition stored_51 : string :=
  String.append "["
    (String.append (String.concat "," (map stored_entry stored_ids)) "]").

(** The entries that text stands for. *)
Definition parsed_51 : list value :=
  map (fun id =>
         make_record id (mkRender "USD" "PKR" "1" VNull)
           (VNum (Number "279")) (VNum (Number "279")) (VStr "T0"))
      stored_ids.

(** ** The derived currency list and the rendered view *)

(** A completion-level [let]: the rest runs when [c] completed normally. *)
Notation "'let*' x := c 'in' k" := (c_bind c (fun x => k))
  (at level 10, x name, c at level 100, k at level 200).

(** [v !== null]. *)
Definition not_null (v : value) : bool :=
  match v with
  | VNull => false
  | _ => true
  end.

(** The decimal text of an index. *)
Definition index_key (n : nat) : string :=
  NilEmpty.string_of_uint (Nat.to_uint n).

(** An array index in the sense of property ordering: a canonical decimal
    numeral below [2^32 - 1]. *)
Definition array_index (k : string) : option Z :=
  let l := list_ascii_of_string k in
  let '(ds, rest) := span_digits 10 l in
  let canonical :=
    match ds with
    | [] => false
    | d :: r => negb ((d =? 0) && negb (is_nil r))
    end in
  if canonical && is_nil rest && (digits_value 10 ds <? 4294967295)
  then Some (digits_value 10 ds)
  else None.

(** [Array.prototype.sort] with a comparator: stable, each element going
    before the first one it does not have to follow. The order is the one
    every engine gives when the comparator is consistent. *)
Fixpoint insert_by {A} (cmp : A -> A -> Z) (x : A) (l : list A) : list A :=
  match l with
  | [] => [x]
  | y :: r => if cmp x y <=? 0 then x :: l else y :: insert_by cmp x r
  end.

Fixpoint sort_by {A} (cmp : A -> A -> Z) (l : list A) : list A :=
  match l with
  | [] => []
  | x :: r => insert_by cmp x (sort_by cmp r)
  end.

(** The fields of an object, one per name, the first occurrence standing
    for the property (as [lookup] reads it). *)
Fixpoint own_fields (fields : list (string * value)) : list (string * value) :=
  match fields with
  | [] => []
  | (k, v) :: r =>
      (k, v) :: filter (fun kv => negb (String.eqb (fst kv) k)) (own_fields r)
  end.

Fixpoint indexed {A} (n : nat) (l : list A) : list (string * A) :=
  match l with
  | [] => []
  | x :: r => (index_key n, x) :: indexed (S n) r
  end.

(** Own enumerable string-keyed properties in property order: array
    indices ascending, then the other names in creation order. *)
Definition ordered_fields (fields : list (string * value))
  : list (string * value) :=
  let own := own_fields fields in
  let idx :=
    flat_map (fun kv =>
                match array_index (fst kv) with
                | Some n => [(n, kv)]
                | None => []
                end) own in
  let others :=
    filter (fun kv =>
              match array_index (fst kv) with
              | Some _ => false
              | None => true
              end) own in
  map snd (sort_by (fun a b => fst a - fst b) idx) ++ others.

(** [Object.entries(v)]. *)
Definition Object_entries (v : value) : completion (list (string * value)) :=
  match v with
  | VUndefined | VNull =>
      Throw (TypeError "Cannot convert undefined or null to object")
  | VBool _ | VNum _ => Normal []
  | VStr s =>
      Normal (indexed 0 (map VStr (code_units (list_ascii_of_string s))))
  | VArr items => Normal (indexed 0 items)
  | VObj fields => Normal (ordered_fields fields)
  end.

(** An element of [currencyList]: [{ code, name }]. *)
Record Currency : Type := mkCurrency {
  code : string;
  name : value
}.

(** [xs.map(f)] for an [f] that may throw: left to right, up to the first
    throw. *)
Fixpoint map_c {A B} (f : A -> completion B) (l : list A)
  : completion (list B) :=
  match l with
  | [] => Normal []
  | x :: r =>
      let* y := f x in
      let* ys := map_c f r in
      Normal (y :: ys)
  end.

Section Rendering.

(** [a.localeCompare(b)] under the locale of the browser: negative, zero
    or positive. *)
Variable localeCompare : string -> string -> Z.

(** The [useMemo] callback of lines 34-37. *)
Definition currencyList (currencies : value) : completion (list Currency) :=
  let* entries := Object_entries (or_else currencies (VObj [])) in
  let* list :=
    map_c (fun '(code, meta) =>
             let* name := get_field meta "name" in
             Normal (mkCurrency code name))
          entries in
  Normal (sort_by (fun a b => localeCompare (code a) (code b)) list).

End Rendering.

(** [v.toLocaleString(..)] completes normally: primitives always do, an
    array asks each element that is not [null] or [undefined], and an
    object must inherit both [toLocaleString] and the [toString] it calls
    (a parsed value held under either name is not callable). *)
Fixpoint toLocaleString_ok (v : value) : bool :=
  match v with
  | VUndefined | VNull => false
  | VBool _ | VNum _ | VStr _ => true
  | VArr items => forallb (fun x => nullish x || toLocaleString_ok x) items
  | VObj fields =>
      match lookup "toLocaleString" fields, lookup "toString" fields with
      | None, None => true
      | _, _ => false
      end
  end.

Definition invoke_toLocaleString (v : value) : completion unit :=
  if toLocaleString_ok v then Normal tt
  else Throw (TypeError "toLocaleString is not a function").

(** Converting the argument of [new Date(v)] to a primitive completes
    normally: an object must inherit [toString], an array asks each of
    its elements that is not [null] or [undefined]. *)
Fixpoint toPrimitive_ok (v : value) : bool :=
  match v with
  | VArr items => forallb (fun x => nullish x || toPrimitive_ok x) items
  | VObj fields =>
      match lookup "toString" fields with
      | None => true
      | Some _ => false
      end
  | _ => true
  end.

Definition new_Date (v : value) : completion unit :=
  if toPrimitive_ok v then Normal tt
  else Throw (TypeError "Cannot convert object to primitive value").

(** [history.length === 0]. *)
Definition length_is_zero (h : value) : completion bool :=
  match h with
  | VUndefined | VNull => Throw (TypeError "Cannot read properties")
  | VArr items => Normal (is_nil items)
  | VStr s => Normal (String.eqb s "")
  | VObj fields =>
      match lookup "length" fields with
      | Some (VNum (S754_zero _)) => Normal true
      | _ => Normal false
      end
  | VBool _ | VNum _ => Normal false
  end.

(** The receiver of [history.map(..)]: only an array has the method. *)
Definition map_receiver (h : value) : completion (list value) :=
  match h with
  | VArr items => Normal items
  | _ => Throw (TypeError "history.map is not a function")
  end.

(** What one [<li>] of the history panel shows (lines 148-155); the two
    formatted texts are represented by the values they format. *)
Record Row : Type := mkRow {
  row_key : value;
  row_amount : value;
  row_from : value;
  row_result : value;
  row_to : value;
  row_rate : value;
  row_at : value
}.

(** The string [key={..}] is turned into by the element factory
    (['' + key], for a key that is not [undefined]); the conversion to a
    primitive is the one of [new Date]. *)
Definition coerce_key (v : value) : completion unit :=
  if toPrimitive_ok v then Normal tt
  else Throw (TypeError "Cannot convert object to primitive value").

(** The callback of [history.map], its expressions in source order, the
    key being converted when the [<li>] is made of them. An [h] that is
    not an object has no [result], so [h.at] is only read from objects. *)
Definition render_row (h : value) : completion Row :=
  let* id := get_field h "id" in
  let* am := get_field h "amount" in
  let* fr := get_field h "from" in
  let* res := get_field h "result" in
  let* _ := invoke_toLocaleString res in
  let* t := get_field h "to" in
  let* rt := get_field h "rate" in
  let* at_ := get_field h "at" in
  let* _ := new_Date at_ in
  let* _ := coerce_key id in
  Normal (mkRow id am fr res t rt at_).

(** The history panel (lines 143-158): [None] stands for the paragraph
    shown for an empty log. *)
Definition history_panel (h : value) : completion (option (list Row)) :=
  let* empty := length_is_zero h in
  if empty then Normal None
  else
    let* items := map_receiver h in
    let* rows := map_c render_row items in
    Normal (Some rows).

(** What the result panel shows (lines 125-133). *)
Record ResultPanel : Type := mkResultPanel {
  shown_amount : string;
  shown_from : string;
  shown_to : string;
  shown_rate : value;
  shown_result : value
}.

Definition result_panel (s : AppState) : completion (option ResultPanel) :=
  if not_null (rate s) && not_null (result s) then
    let* _ := invoke_toLocaleString (result s) in
    Normal (Some (mkResultPanel (amount s) (from s) (to s)
                                (rate s) (result s)))
  else Normal None.

(** What [App] returns for a state, as far as the state decides it:
    [view_options] is [None] while the selects show their placeholder. *)
Record View : Type := mkView {
  view_options : option (list Currency);
  view_submit_disabled : bool;
  view_result : option ResultPanel;
  view_history : option (list Row)
}.

(** The body of [App] from line 34 on: the memoised list, then the
    elements from top to bottom. *)
Definition App (localeCompare : string -> string -> Z)
  (s : AppState) : completion View :=
  let* list := currencyList localeCompare (currencies s) in
  let* panel := result_panel s in
  let* rows := history_panel (history s) in
  Normal (mkView (if loadingCurrencies s then None else Some list)
                 (submit_disabled s) panel rows).

(** A value React takes as a child: a text or a number, an array of
    children, and [null], [undefined] and the booleans, which show
    nothing. Any other object is refused (a parsed value is no element). *)
Fixpoint child_ok (v : value) : bool :=
  match v with
  | VObj _ => false
  | VArr items => forallb (fun x => child_ok x) items
  | _ => true
  end.

(** The children of a row that are values of the entry (lines 151-152). *)
Definition row_children (r : Row) : list value :=
  [row_amount r; row_from r; row_to r; row_rate r].

(** The children of the view that are not texts by construction, from top
    to bottom: the names of the options (line 100, again on line 111), the
    rate of the result panel (line 129), the children of the rows. *)
Definition children (v : View) : list value :=
  match view_options v with
  | Some list => map name list
  | None => []
  end
  ++ match view_result v with
     | Some p => [shown_rate p]
     | None => []
     end
  ++ match view_history v with
     | Some rows => flat_map row_children rows
     | None => []
     end.

(** What React does with the elements [App] returned. *)
Definition reconcile (v : View) : completion View :=
  if forallb child_ok (children v) then Normal v
  else Throw (VObj [("name", VStr "Error");
                    ("message", VStr "Objects are not valid as a React child")]).

(** One render of [<App />]: the body of [App], then its elements taken
    by React. *)
Definition App_render (localeCompare : string -> string -> Z)
  (s : AppState) : completion View :=
  let* v := App localeCompare s in
  reconcile v.

(** A [localeCompare] that orders by code point (the order of the bytes). *)
Definition compare_code_points (a b : string) : Z :=
  match String.compare a b with
  | Lt => -1
  | Eq => 0
  | Gt => 1
  end.

(** The request of line 44. *)
Definition is_catalog_request (env : option string) (e : Effect) : bool :=
  match e with
  | AxiosGet url _ =>
      String.eqb url (String.append (API_BASE env) "/api/currencies")
  | _ => false
  end.

(** No conversion in flight and [loading] clear, or one and [loading] set. *)
Definition loading_tracks_flight (s : System) : Prop :=
  (inflight s = [] /\ loading (app s) = false)
  \/ exists r, inflight s = [r] /\ loading (app s) = true.

(** The form before the catalog fetch has settled. *)
Definition inert (env : option string) (s : System) : Prop :=
  loadingCurrencies (app s) = true
  /\ inflight s = []
  /\ from (app s) = "USD"
  /\ to (app s) = "PKR"
  /\ result (app s) = VNull
  /\ rate (app s) = VNull
  /\ loading (app s) = false
  /\ filter is_request (trace s)
     = [AxiosGet (String.append (API_BASE env) "/api/currencies") []].

(** ** What renders *)

(** The entry [{ code, name }] the [map] of line 35 makes of a field. *)
Definition to_currency (kv : string * value) : Currency :=
  mkCurrency (fst kv) (field "name" (snd kv)).

(** No entry of the catalog is [null] or [undefined], and the [name] of
    each can be shown. *)
Definition catalog_ok (c : value) : bool :=
  match Object_entries (or_else c (VObj [])) with
  | Normal es =>
      forallb (fun kv => negb (nullish (snd kv))) es
      && forallb (fun kv => child_ok (field "name" (snd kv))) es
  | Throw _ => false
  end.

(** A log item the history panel can show. *)
Definition row_ok (h : value) : bool :=
  negb (nullish h)
  && toLocaleString_ok (field "result" h)
  && toPrimitive_ok (field "at" h)
  && toPrimitive_ok (field "id" h)
  && forallb child_ok
       [field "amount" h; field "from" h; field "to" h; field "rate" h].

(** A convert request that fails, or answers with a [result] that can be
    formatted, a [rate] that can be shown and a [fetchedAt] a date can be
    made of. *)
Definition response_tame (o : HttpOutcome) : bool :=
  match o with
  | NetworkError _ => true
  | HttpResponse status data =>
      negb (status_ok status) || nullish data
      || (toLocaleString_ok (field "result" data)
          && toPrimitive_ok (field "fetchedAt" data)
          && child_ok (field "rate" data))
  end.

(** A catalog request that fails, or answers with a catalog without
    [null] entries whose names can be shown. *)
Definition catalog_tame (o : HttpOutcome) : bool :=
  match o with
  | NetworkError _ => true
  | HttpResponse status payload =>
      negb (status_ok status) || nullish payload
      || catalog_ok (field "data" payload)
  end.

Definition action_tame (a : Action) : bool :=
  match a with
  | ConvertSettles _ _ o => response_tame o
  | CatalogSettles o => catalog_tame o
  | _ => true
  end.

(** The states every render of which completes. *)
Definition renderable (s : System) : Prop :=
  (exists items, history (app s) = VArr items /\ forallb row_ok items = true)
  /\ Forall (fun r => exists items,
                 r_history r = VArr items /\ forallb row_ok items = true)
            (inflight s)
  /\ catalog_ok (currencies (app s)) = true
  /\ (result (app s) = VNull \/ toLocaleString_ok (result (app s)) = true)
  /\ child_ok (rate (app s)) = true.

(** Case analysis on the outcome of the handler under [after]. *)
Ltac after_cases :=
  unfold after;
  repeat match goal with
         | |- context [match ?m (app ?s) with mkOutcome _ _ _ => _ end] =>
             destruct (m (app s))
         end.

(** ** Sanity checks of the JavaScript layer *)

Example Number_decimal :
  Number "0.1" = S754_finite false 7205759403792794 (-56)
  /\ Number " 12 " = S754_finite false 6755399441055744 (-49)
  /\ Number "0x10" = S754_finite false 4503599627370496 (-48)
  /\ Number "" = S754_zero false
  /\ Number "-0" = S754_zero true.
Proof. repeat split; vm_compute; reflexivity. Qed.

Example Number_not_numeric :
  Number "abc" = NaN /\ Number "1,5" = NaN /\ Number "12px" = NaN
  /\ Number "." = NaN /\ Number "1e" = NaN /\ Number "-0x10" = NaN.
Proof. repeat split; vm_compute; reflexivity. Qed.

Example Number_overflow :
  Number "1.7976931348623158e308" = S754_finite false 9007199254740991 971
  /\ Number "1.7976931348623159e308" = Infinity
  /\ Number "1e999" = Infinity
  /\ Number "-Infinity" = S754_infinity true.
Proof. repeat split; vm_compute; reflexivity. Qed.

Example JSON_parse_samples :
  JSON.parse "[]" = Normal (VArr [])
  /\ JSON.parse " [true, null] " = Normal (VArr [VBool true; VNull])
  /\ JSON.parse "{}" = Normal (VObj [])
  /\ JSON.parse "" = Throw JSON.SyntaxError
  /\ JSON.parse "[1,]" = Throw JSON.SyntaxError
  /\ JSON.parse "not json" = Throw JSON.SyntaxError.
Proof. repeat split; vm_compute; reflexivity. Qed.

Example JSON_parse_strings :
  JSON.parse (quoted "é€") = Normal (VStr "é€")
  /\ JSON.parse (quoted (String JSON.backslash "u00e9")) = Normal (VStr "é")
  /\ JSON.parse (quoted (String JSON.backslash "u20AC")) = Normal (VStr "€")
  /\ JSON.parse (quoted (String.append (String JSON.backslash "ud83d")
                                       (String JSON.backslash "ude00")))
     = Normal (VStr "😀")
  /\ JSON.parse (quoted (String JSON.backslash "ud83d"))
     = Normal (VStr (string_of_list_ascii (encode_unit 55357)))
  /\ JSON.parse (quoted (String JSON.backslash "x")) = Throw JSON.SyntaxError.
Proof. repeat split; vm_compute; reflexivity. Qed.

Example strings_by_code_point :
  spread (VStr "a😀é") = Normal [VStr "a"; VStr "😀"; VStr "é"]
  /\ Object_entries (VStr "😀é")
     = Normal [("0", VStr (string_of_list_ascii (encode_unit 55357)));
               ("1", VStr (string_of_list_ascii (encode_unit 56832)));
               ("2", VStr "é")].
Proof. repeat split; vm_compute; reflexivity. Qed.

(** No-break space and ideographic space are trimmed like a blank. *)
Example Number_trims_white_space :
  Number (string_of_list_ascii
            (encode_unit 160 ++ encode_unit 12288 ++ list_ascii_of_string "12"
             ++ encode_unit 8232 ++ encode_unit 65279))
  = Number "12"
  /\ Number (string_of_list_ascii
               (encode_unit 8203 ++ list_ascii_of_string "12"))
     = NaN.
Proof. repeat split; vm_compute; reflexivity. Qed.

(** ** Swap *)

(** C7. In every state, [onSwap] run by the current render exchanges
    [from] and [to], sets [result] and [rate] back to [null], and leaves
    [amount], the history log and every other cell as they were; it performs
    no effect and completes normally. *)
Theorem onSwap_exchanges_and_clears (s : AppState) :
  let o := onSwap (render s) s in
  from (state_of o) = to s
  /\ to (state_of o) = from s
  /\ result (state_of o) = VNull
  /\ rate (state_of o) = VNull
  /\ amount (state_of o) = amount s
  /\ history (state_of o) = history s
  /\ currencies (state_of o) = currencies s
  /\ loading (state_of o) = loading s
  /\ loadingCurrencies (state_of o) = loadingCurrencies s
  /\ effects_of o = []
  /\ completion_of o = Normal tt.
Proof. cbn. repeat split. Qed.

(** ** Submitting the form *)

Section Submission.

Variable env : option string.

Lemma amount_accepted_false (a : string) :
  a = "" \/ isNaN (Number a) = true -> amount_accepted a = false.
Proof.
  unfold amount_accepted. intros [-> | H].
  - reflexivity.
  - rewrite H. now rewrite orb_true_r.
Qed.

(** What [onConvert] does before it suspends, by the guard of line 62. *)
Lemma onConvert_submit_cases (r : Render) (s : AppState) :
  onConvert_submit env r s =
  if amount_accepted (r_amount r)
  then mkOutcome (Normal true)
         (set_rate VNull (set_result VNull (set_loading true s)))
         [PreventDefault;
          AxiosGet (String.append (API_BASE env) "/api/convert")
                   (convert_params r)]
  else mkOutcome (Normal false) s [PreventDefault].
Proof.
  unfold onConvert_submit, amount_accepted.
  destruct (negb (truthy (VStr (r_amount r))) || isNaN (Number (r_amount r)));
    reflexivity.
Qed.

End Submission.

(** C5, as the code has it. Whenever the amount text is empty or
    [Number(amount)] is NaN, [onConvert] returns before the request: the
    component state (so [loading], [result], [rate] and the history log) is
    unchanged, no request is issued or left in flight, and its only effect
    is [e.preventDefault()]. *)
Theorem onConvert_rejects_empty_or_NaN
  (env : option string) (sys : System) :
  amount (app sys) = "" \/ isNaN (Number (amount (app sys))) = true ->
  let o := onConvert_submit env (render (app sys)) (app sys) in
  completion_of o = Normal false
  /\ state_of o = app sys
  /\ effects_of o = [PreventDefault]
  /\ existsb is_request (effects_of o) = false
  /\ app (step env Submit sys) = app sys
  /\ inflight (step env Submit sys) = inflight sys.
Proof.
  intros H. apply amount_accepted_false in H.
  assert (E : onConvert_submit env (render (app sys)) (app sys)
              = mkOutcome (Normal false) (app sys) [PreventDefault]).
  { rewrite onConvert_submit_cases. cbn [render r_amount]. now rewrite H. }
  cbv zeta. unfold step, after. rewrite E. cbn. repeat split.
Qed.

Lemma onConvert_rejects_empty_or_NaN_witness :
  let sys := mkSystem (set_amount "12px" (initial_state (VArr [])))
                      [] [] false false in
  isNaN (Number (amount (app sys))) = true
  /\ app (step None Submit sys) = app sys
  /\ inflight (step None Submit sys) = [].
Proof.
  cbv zeta.
  assert (H : isNaN (Number "12px") = true) by (vm_compute; reflexivity).
  split; [exact H | ].
  pose proof (onConvert_rejects_empty_or_NaN None
                (mkSystem (set_amount "12px" (initial_state (VArr [])))
                          [] [] false false) (or_intror H)) as T.
  cbv zeta in T. destruct T as (_ & _ & _ & _ & T1 & T2).
  split; [exact T1 | exact T2].
Defined.

(** C5 as stated fails: the text [Infinity] does not convert to a finite
    number, yet the guard lets it through; a request carrying
    [amount: Infinity] is issued and [loading] becomes [true]. *)
Lemma onConvert_submits_Infinity :
  let s := set_amount "Infinity" (initial_state (VArr [])) in
  let o := onConvert_submit None (render s) s in
  isFinite (Number (amount s)) = false
  /\ loading s = false
  /\ loading (state_of o) = true
  /\ effects_of o =
       [PreventDefault;
        AxiosGet "http://localhost:5174/api/convert"
                 [("from", VStr "USD"); ("to", VStr "PKR");
                  ("amount", VNum Infinity)]].
Proof. vm_compute. repeat split. Qed.

(** ** Settling a convert request *)

Lemma get_field_field (k : string) (v : value) :
  nullish v = false -> get_field v k = Normal (field k v).
Proof.
  unfold field. destruct v; cbn; try discriminate; try reflexivity.
  intros _. destruct (lookup k fields); reflexivity.
Qed.

Lemma get_field_nullish (k : string) (v : value) :
  nullish v = true ->
  get_field v k = Throw (TypeError "Cannot read properties").
Proof. destruct v; cbn; try discriminate; reflexivity. Qed.

(** The success path of lines 68-71, then [finally]. *)
Lemma onConvert_settle_success
  (r : Render) (uuid : string) (status : Z) (data : value)
  (items : list value) (s : AppState) :
  status_ok status = true ->
  nullish data = false ->
  spread (r_history r) = Normal items ->
  onConvert_settle r uuid (HttpResponse status data) s =
  mkOutcome (Normal tt)
    (set_loading false
       (set_history
          (VArr (firstn 50
                   (make_record uuid r (field "result" data)
                      (field "rate" data) (field "fetchedAt" data) :: items)))
          (set_rate (field "rate" data)
             (set_result (field "result" data) s))))
    [].
Proof.
  intros Hs Hd Hh.
  unfold onConvert_settle, try_finally, try_catch, bind, lift.
  cbn. rewrite Hs. cbn.
  rewrite !(get_field_field _ _ Hd). cbn.
  rewrite Hh. reflexivity.
Qed.

(** The failure path: the rejection, or the [TypeError] of destructuring
    a [null] or [undefined] payload, reaches [catch], then [finally]. *)
Lemma onConvert_settle_rejected
  (r : Render) (uuid : string) (o : HttpOutcome) (e : value) (s : AppState) :
  axios_settled o = Throw e ->
  onConvert_settle r uuid o s =
  mkOutcome (Normal tt) (set_loading false s)
            [ConsoleError e; Alert failure_notice].
Proof.
  intros H.
  unfold onConvert_settle, try_finally, try_catch, bind, lift.
  rewrite H. reflexivity.
Qed.

Lemma onConvert_settle_no_payload
  (r : Render) (uuid : string) (status : Z) (data : value) (s : AppState) :
  status_ok status = true ->
  nullish data = true ->
  onConvert_settle r uuid (HttpResponse status data) s =
  mkOutcome (Normal tt) (set_loading false s)
            [ConsoleError (TypeError "Cannot read properties");
             Alert failure_notice].
Proof.
  intros Hs Hd.
  unfold onConvert_settle, try_finally, try_catch, bind, lift.
  cbn. rewrite Hs. cbn.
  rewrite (get_field_nullish _ _ Hd). reflexivity.
Qed.

(** C6, as the code has it. A convert request fails when axios rejects
    it (no response, or a status outside 200..299) or when its payload is
    [null] or [undefined]. For every such request issued from a state [s]:
    [result] and [rate] are [null] when it has settled, the history log is
    the one of [s], [loading] ends [false], and settling logs the error with
    [console.error] and then shows the failure notice with [alert]; in
    whatever state the failure arrives, it changes [loading] only. *)
Theorem onConvert_failure_handled
  (env : option string) (s : AppState) (uuid : string) (o : HttpOutcome) :
  amount_accepted (amount s) = true ->
  (exists err, o = NetworkError err)
  \/ (exists status data,
        o = HttpResponse status data /\ status_ok status = false)
  \/ (exists status data,
        o = HttpResponse status data /\ nullish data = true) ->
  let sent := onConvert_submit env (render s) s in
  let done := onConvert_settle (render s) uuid o (state_of sent) in
  completion_of sent = Normal true
  /\ completion_of done = Normal tt
  /\ result (state_of done) = VNull
  /\ rate (state_of done) = VNull
  /\ history (state_of done) = history s
  /\ loading (state_of done) = false
  /\ (exists e, effects_of done = [ConsoleError e; Alert failure_notice])
  /\ (forall s', state_of (onConvert_settle (render s) uuid o s')
                 = set_loading false s').
Proof.
  intros Ha Ho. cbv zeta.
  rewrite onConvert_submit_cases. cbn [render r_amount]. rewrite Ha.
  cbn [state_of completion_of].
  assert (F : exists e, forall s',
             onConvert_settle (render s) uuid o s'
             = mkOutcome (Normal tt) (set_loading false s')
                 [ConsoleError e; Alert failure_notice]).
  { destruct Ho as [[err ->] | [(status & data & -> & Hs) | (status & data & -> & Hd)]].
    - exists err. intros s'. now apply onConvert_settle_rejected.
    - exists (AxiosError status). intros s'.
      apply onConvert_settle_rejected.
      cbn [axios_settled]. now rewrite Hs.
    - destruct (status_ok status) eqn:Hs.
      + eexists. intros s'. now apply onConvert_settle_no_payload.
      + exists (AxiosError status). intros s'.
        apply onConvert_settle_rejected.
        cbn [axios_settled]. now rewrite Hs. }
  destruct F as [e F]. rewrite !F. cbn. repeat split.
  - now exists e.
  - intros s'. now rewrite F.
Qed.

Lemma onConvert_failure_handled_witness :
  let s := initial_state (VArr []) in
  let o := HttpResponse 500 (VStr "Internal Server Error") in
  let done :=
    onConvert_settle (render s) "id-1" o
      (state_of (onConvert_submit None (render s) s)) in
  result (state_of done) = VNull
  /\ history (state_of done) = VArr []
  /\ loading (state_of done) = false
  /\ exists e, effects_of done = [ConsoleError e; Alert failure_notice].
Proof.
  cbv zeta.
  pose proof (onConvert_failure_handled None (initial_state (VArr [])) "id-1"
                (HttpResponse 500 (VStr "Internal Server Error"))
                eq_refl
                (or_intror (or_introl
                   (ex_intro _ 500
                      (ex_intro _ (VStr "Internal Server Error")
                         (conj eq_refl eq_refl)))))) as T.
  cbv zeta in T. destruct T as (_ & _ & T1 & _ & T2 & T3 & T4 & _).
  repeat split; assumption.
Defined.

(** C6 as stated fails for a malformed payload: a 200 response whose body
    is an object without [result], [rate] and [fetchedAt] is handled as a
    success. [result] and [rate] become [undefined], an entry is prepended
    to the log, and nothing is logged or shown. *)
Lemma onConvert_accepts_malformed_payload :
  let s := initial_state (VArr []) in
  let o := HttpResponse 200 (VObj []) in
  let done :=
    onConvert_settle (render s) "id-1" o
      (state_of (onConvert_submit None (render s) s)) in
  result (state_of done) = VUndefined
  /\ rate (state_of done) = VUndefined
  /\ history s = VArr []
  /\ history (state_of done) =
       VArr [VObj [("id", VStr "id-1"); ("from", VStr "USD");
                   ("to", VStr "PKR"); ("amount", VNum (Number "1"));
                   ("result", VUndefined); ("rate", VUndefined);
                   ("at", VUndefined)]]
  /\ effects_of done = [].
Proof. vm_compute. repeat split. Qed.

(** ** The bounded log *)

Section BoundedLog.

Context {A : Type}.

(** Truncating before a new head is prepended and truncated again is
    the same as truncating once. *)
Lemma firstn_cons_firstn (n : nat) (x : A) (l : list A) :
  firstn n (x :: firstn n l) = firstn n (x :: l).
Proof.
  destruct n as [ | n]; [reflexivity | ].
  rewrite !firstn_cons, firstn_firstn.
  now rewrite Nat.min_l by lia.
Qed.

Lemma firstn_In (n : nat) (x : A) (l : list A) :
  In x (firstn n l) -> In x l.
Proof.
  intros H. rewrite <- (firstn_skipn n l). apply in_or_app. now left.
Qed.

Lemma NoDup_firstn (n : nat) (l : list A) :
  NoDup l -> NoDup (firstn n l).
Proof.
  intros H. rewrite <- (firstn_skipn n l) in H.
  now apply NoDup_app_remove_r in H.
Qed.

Lemma length_firstn_cons (n : nat) (x : A) (l : list A) :
  List.length (firstn n (x :: l)) = Nat.min (List.length l + 1) n.
Proof. rewrite length_firstn. cbn [List.length]. lia. Qed.

End BoundedLog.

(** C1, as the code has it. A conversion submitted from state [s] with an
    accepted amount and answered with a 2xx status and a payload [data]
    issues the request with [from], [to] and [Number(amount)] of [s]. When
    the response arrives, in whatever state [s'] the component then is,
    the entry [{id, from, to, amount, result, rate, at}] is put at
    position 0 of the log: [from], [to], [amount] are those of the
    request, [result] and [rate] are [data.result] and [data.rate], [at]
    is [data.fetchedAt] and [id] is the value [crypto.randomUUID()]
    returned, which nothing compares with the ids of the log. The new log
    is the entry followed by the log captured at submission, the log of
    [s], cut to 50, whatever the log of [s'] is: its length is
    [min (length at submission + 1) 50], and this is
    [min (previous length + 1) 50] when the log was not replaced while
    the request was in flight. When the new id is fresh for a captured log
    whose ids are distinct, the ids stay distinct. The displayed [result]
    and [rate] are those of the response and [loading] ends [false]. *)
Theorem onConvert_success_prepends_entry
  (env : option string) (s s' : AppState) (uuid : string)
  (status : Z) (data : value) (l : list value) :
  amount_accepted (amount s) = true ->
  history s = VArr l ->
  status_ok status = true ->
  nullish data = false ->
  let sent := onConvert_submit env (render s) s in
  let done :=
    onConvert_settle (render s) uuid (HttpResponse status data) s' in
  let entry :=
    VObj [("id", VStr uuid);
          ("from", VStr (from s));
          ("to", VStr (to s));
          ("amount", VNum (Number (amount s)));
          ("result", field "result" data);
          ("rate", field "rate" data);
          ("at", field "fetchedAt" data)] in
  completion_of sent = Normal true
  /\ history (state_of sent) = history s
  /\ effects_of sent =
       [PreventDefault;
        AxiosGet (String.append (API_BASE env) "/api/convert")
                 [("from", VStr (from s)); ("to", VStr (to s));
                  ("amount", VNum (Number (amount s)))]]
  /\ history (state_of done) = VArr (entry :: firstn 49 l)
  /\ history (state_of done) = VArr (firstn 50 (entry :: l))
  /\ log_length (history (state_of done))
     = Some (Nat.min (List.length l + 1) 50)
  /\ result (state_of done) = field "result" data
  /\ rate (state_of done) = field "rate" data
  /\ loading (state_of done) = false
  /\ effects_of done = []
  /\ (~ In (VStr uuid) (map (field "id") l) ->
      NoDup (map (field "id") l) ->
      NoDup (map (field "id") (entry :: firstn 49 l)))
  /\ (history s' = history s ->
      log_length (history (state_of done))
      = option_map (fun n => Nat.min (n + 1) 50) (log_length (history s'))).
Proof.
  intros Ha Hh Hs Hd. cbv zeta.
  rewrite onConvert_submit_cases. cbn [render r_amount]. rewrite Ha.
  cbn [state_of effects_of completion_of].
  rewrite (onConvert_settle_success _ uuid status data l _ Hs Hd)
    by (unfold render; cbn [r_history]; rewrite Hh; reflexivity).
  cbn [state_of effects_of history result rate loading set_loading
       set_history set_rate set_result make_record r_from r_to r_amount
       convert_params log_length].
  repeat split.
  - now rewrite length_firstn_cons.
  - intros Hfresh Hnd. cbn [map]. constructor.
    + rewrite <- firstn_map. intros Hin.
      apply Hfresh. exact (firstn_In _ _ _ Hin).
    + rewrite <- firstn_map. now apply NoDup_firstn.
  - intros ->. rewrite Hh. cbn [log_length option_map].
    now rewrite length_firstn_cons.
Qed.

(** The example of the specification: 10 USD to PKR, answered with
    [{result: 2790, rate: 279, fetchedAt: T1}]. *)
Lemma onConvert_success_prepends_entry_witness :
  let s := set_amount "10" (initial_state (VArr [])) in
  let data := VObj [("result", VNum (Number "2790"));
                    ("rate", VNum (Number "279"));
                    ("fetchedAt", VStr "T1")] in
  let done :=
    onConvert_settle (render s) "id-1" (HttpResponse 200 data)
                     (state_of (onConvert_submit None (render s) s)) in
  history (state_of done) =
    VArr [VObj [("id", VStr "id-1"); ("from", VStr "USD"); ("to", VStr "PKR");
                ("amount", VNum (Number "10"));
                ("result", VNum (Number "2790"));
                ("rate", VNum (Number "279"));
                ("at", VStr "T1")]]
  /\ result (state_of done) = VNum (Number "2790")
  /\ rate (state_of done) = VNum (Number "279").
Proof.
  cbv zeta.
  pose proof (onConvert_success_prepends_entry None
                (set_amount "10" (initial_state (VArr [])))
                (state_of
                   (onConvert_submit None
                      (render (set_amount "10" (initial_state (VArr []))))
                      (set_amount "10" (initial_state (VArr [])))))
                "id-1" 200
                (VObj [("result", VNum (Number "2790"));
                       ("rate", VNum (Number "279"));
                       ("fetchedAt", VStr "T1")])
                [] eq_refl eq_refl eq_refl eq_refl) as T.
  cbv zeta in T. destruct T as (_ & _ & _ & T1 & _ & _ & T2 & T3 & _).
  repeat split; assumption.
Defined.

(** C1 as stated fails through the view: the Clear button is never
    disabled, so the log can be emptied while the request is in flight.
    The response then installs its entry in front of the three entries
    captured at submission: the log just before the append has no entry,
    the log after it has four, not [min (0 + 1) 50]. *)
Lemma append_after_clear_brings_back_captured_log :
  let data := VObj [("result", VNum (Number "2790"));
                    ("rate", VNum (Number "279"));
                    ("fetchedAt", VStr "T1")] in
  let before :=
    ui_run None [CatalogSettles (HttpResponse 500 VNull); Submit; Clear]
      (mount None (VArr (firstn 3 parsed_51))) in
  let after :=
    ui_step None (ConvertSettles 0 "id-1" (HttpResponse 200 data)) before in
  List.length (inflight before) = 1%nat
  /\ log_length (history (app before)) = Some 0%nat
  /\ history (app after)
     = VArr (make_record "id-1" (mkRender "USD" "PKR" "1" VNull)
               (VNum (Number "2790")) (VNum (Number "279")) (VStr "T1")
             :: firstn 3 parsed_51)
  /\ log_length (history (app after)) = Some 4%nat
  /\ Nat.min (0 + 1) 50 <> 4%nat.
Proof. vm_compute. repeat split. discriminate. Qed.

(** ** The currency catalog *)

(** Once the effect is cancelled, the settling fetch writes nothing. *)
Lemma fetchCurrencies_settle_cancelled (o : HttpOutcome) (s : AppState) :
  state_of (fetchCurrencies_settle true o s) = s
  /\ completion_of (fetchCurrencies_settle true o s) = Normal tt.
Proof.
  unfold fetchCurrencies_settle, try_finally, try_catch, bind, lift, ret.
  cbn [negb]. destruct (axios_settled o); split; reflexivity.
Qed.

Lemma cancelled_step (env : option string) (a : Action) (sys : System) :
  cancelled sys = true -> cancelled (step env a sys) = true.
Proof.
  intros H. destruct a; cbn [step]; try (after_cases; exact H).
  - destruct (completion_of _) as [[ | ] | ]; after_cases; exact H.
  - destruct (nth_error _ _); [after_cases | ]; exact H.
  - destruct (catalog_pending sys); [after_cases | ]; exact H.
  - reflexivity.
Qed.

Lemma cancelled_run (env : option string) (acts : list Action) :
  forall sys, cancelled sys = true -> cancelled (run env acts sys) = true.
Proof.
  induction acts as [ | a acts IH]; intros sys H; [exact H | ].
  cbn [run fold_left]. apply IH. now apply cancelled_step.
Qed.

(** C8. After the view is torn down ([Unmount] runs the cleanup, which
    sets [cancelled]), whatever happens next, a settling catalog fetch
    leaves every state cell as it is, for a response as for a failure:
    neither [setCurrencies] nor [setLoadingCurrencies(false)] runs. *)
Theorem late_catalog_response_writes_nothing
  (env : option string) (sys : System) (acts : list Action)
  (o : HttpOutcome) :
  let late := run env acts (step env Unmount sys) in
  cancelled late = true
  /\ app (step env (CatalogSettles o) late) = app late
  /\ state_of (fetchCurrencies_settle (cancelled late) o (app late))
     = app late.
Proof.
  cbv zeta.
  assert (C : cancelled (run env acts (step env Unmount sys)) = true)
    by (apply cancelled_run; reflexivity).
  set (late := run env acts (step env Unmount sys)) in *.
  destruct (fetchCurrencies_settle_cancelled o (app late)) as [E _].
  split; [exact C | ]. split.
  - cbn [step]. destruct (catalog_pending late); [ | reflexivity].
    rewrite C. unfold after.
    destruct (fetchCurrencies_settle true o (app late)). exact E.
  - rewrite C. exact E.
Qed.

(** C10. A resolved catalog fetch (view still mounted) whose payload has
    no [data] field, or has it [undefined] or [null], sets the catalog to
    the empty object and clears [loadingCurrencies]; nothing is logged, and
    the outcome is the one of a payload [{data: {}}]. *)
Theorem fetchCurrencies_missing_data_is_empty_catalog
  (s : AppState) (status : Z) (payload : value) :
  status_ok status = true ->
  get_field payload "data" = Normal VUndefined
  \/ get_field payload "data" = Normal VNull ->
  let o := fetchCurrencies_settle false (HttpResponse status payload) s in
  completion_of o = Normal tt
  /\ currencies (state_of o) = VObj []
  /\ loadingCurrencies (state_of o) = false
  /\ effects_of o = []
  /\ o = fetchCurrencies_settle false
           (HttpResponse status (VObj [("data", VObj [])])) s.
Proof.
  intros Hs Hp. cbv zeta.
  unfold fetchCurrencies_settle, try_finally, try_catch, bind, lift, ret.
  cbn. rewrite Hs. cbn.
  destruct Hp as [-> | ->]; cbn; repeat split.
Qed.

Lemma fetchCurrencies_missing_data_is_empty_catalog_witness :
  let o := fetchCurrencies_settle false (HttpResponse 200 (VObj []))
             (initial_state (VArr [])) in
  currencies (state_of o) = VObj []
  /\ loadingCurrencies (state_of o) = false
  /\ effects_of o = [].
Proof.
  cbv zeta.
  pose proof (fetchCurrencies_missing_data_is_empty_catalog
                (initial_state (VArr [])) 200 (VObj [])
                eq_refl (or_introl eq_refl)) as T.
  cbv zeta in T. destruct T as (_ & T1 & T2 & T3 & _).
  repeat split; assumption.
Defined.

(** ** Loading and saving the history *)

Section HistoryPersistence.

Variable getItem : string -> completion (option string).
Variable setItem : string -> string -> completion unit.
Variable JSON_parse : string -> completion value.
Variable JSON_stringify : value -> completion string.

Lemma load_history_total :
  exists h, load_history getItem JSON_parse = Normal h.
Proof.
  unfold load_history, useLocalStorage_init, read_item, c_try, c_bind.
  destruct (getItem history_key) as [[s | ] | e]; eauto.
  destruct (truthy (VStr s)); eauto.
  destruct (JSON_parse s); eauto.
Qed.

(** C9, as the code has it. The initialiser of the history state always
    returns a value: the parsed slot, whatever it is, when [getItem]
    returns a non-empty text that [JSON.parse] accepts, and the empty
    array when the slot is absent, when reading it throws, or when
    [JSON.parse] throws. Nothing else is returned, and nothing looks at
    the shape of the parsed value: a slot that parses to something that is
    not a sequence is returned as the history. The saving effect always
    completes normally, whatever [JSON.stringify] and [setItem] do. *)
Theorem history_load_and_save_never_throw (v : value) :
  (exists h, load_history getItem JSON_parse = Normal h)
  /\ (forall s h,
        getItem history_key = Normal (Some s) -> s <> "" ->
        JSON_parse s = Normal h ->
        load_history getItem JSON_parse = Normal h)
  /\ (getItem history_key = Normal None ->
      load_history getItem JSON_parse = Normal (VArr []))
  /\ (forall e, getItem history_key = Throw e ->
                load_history getItem JSON_parse = Normal (VArr []))
  /\ (forall s e,
        getItem history_key = Normal (Some s) ->
        JSON_parse s = Throw e ->
        load_history getItem JSON_parse = Normal (VArr []))
  /\ (forall h,
        load_history getItem JSON_parse = Normal h ->
        h = VArr []
        \/ exists s, getItem history_key = Normal (Some s)
                     /\ s <> "" /\ JSON_parse s = Normal h)
  /\ save_history setItem JSON_stringify v = Normal tt.
Proof.
  split; [exact load_history_total | ].
  unfold load_history, useLocalStorage_init, read_item, c_try, c_bind.
  repeat split.
  - intros s h -> Hs ->. cbn.
    destruct (String.eqb_spec s ""); [contradiction | reflexivity].
  - now intros ->.
  - now intros e ->.
  - intros s e -> ->. destruct (truthy (VStr s)); reflexivity.
  - intros h.
    destruct (getItem history_key) as [[s | ] | e];
      [ | intros [= <-]; now left | intros [= <-]; now left].
    cbn [truthy]. destruct (String.eqb_spec s "") as [-> | Hs]; cbn [negb].
    + intros [= <-]. now left.
    + destruct (JSON_parse s) as [x | e] eqn:Hp; intros [= <-]; [ | now left].
      right. exists s. split; [reflexivity | split; [exact Hs | exact Hp]].
  - unfold save_history, useLocalStorage_effect, c_try, c_bind.
    destruct (JSON_stringify v) as [t | e]; [ | reflexivity].
    destruct (setItem history_key t) as [[] | e]; reflexivity.
Qed.

End HistoryPersistence.

Lemma history_load_and_save_never_throw_witness :
  load_history (fun _ => Normal (Some "[true, null]")) JSON.parse
  = Normal (VArr [VBool true; VNull])
  /\ save_history
       (fun _ _ => Throw (VObj [("name", VStr "QuotaExceededError")]))
       (fun _ => Normal "[]") (VArr [])
     = Normal tt.
Proof.
  destruct (history_load_and_save_never_throw
              (fun _ => Normal (Some "[true, null]"))
              (fun _ _ => Throw (VObj [("name", VStr "QuotaExceededError")]))
              JSON.parse (fun _ => Normal "[]") (VArr []))
    as (_ & T1 & _ & _ & _ & _ & T2).
  split; [ | exact T2].
  apply (T1 "[true, null]" (VArr [VBool true; VNull])).
  - reflexivity.
  - discriminate.
  - vm_compute. reflexivity.
Defined.

(** C9 as stated fails for a corrupt slot that still parses: the texts
    [null] and [{}] are returned as the history, not replaced by the
    empty sequence, and the history panel of the first render throws on
    either ([null] has no [length], an object has no [map]). *)
Lemma load_history_returns_corrupt_slot :
  load_history (fun _ => Normal (Some "null")) JSON.parse = Normal VNull
  /\ load_history (fun _ => Normal (Some "{}")) JSON.parse = Normal (VObj [])
  /\ VNull <> VArr []
  /\ VObj [] <> VArr []
  /\ (exists e, history_panel (history (initial_state VNull)) = Throw e)
  /\ (exists e, history_panel (history (initial_state (VObj []))) = Throw e).
Proof.
  repeat split; try discriminate; try (vm_compute; reflexivity);
    eexists; vm_compute; reflexivity.
Qed.

(** ** Runs of the mounted component *)

(** A captured log that cannot be spread (it is not an array or a string)
    makes line 71 throw after [result] and [rate] have been set. *)
Lemma onConvert_settle_not_iterable
  (r : Render) (uuid : string) (status : Z) (data e : value) (s : AppState) :
  status_ok status = true ->
  nullish data = false ->
  spread (r_history r) = Throw e ->
  onConvert_settle r uuid (HttpResponse status data) s =
  mkOutcome (Normal tt)
    (set_loading false
       (set_rate (field "rate" data) (set_result (field "result" data) s)))
    [ConsoleError e; Alert failure_notice].
Proof.
  intros Hs Hd Hh.
  unfold onConvert_settle, try_finally, try_catch, bind, lift.
  cbn. rewrite Hs. cbn.
  rewrite !(get_field_field _ _ Hd). cbn.
  rewrite Hh. reflexivity.
Qed.

(** Settling either leaves the log alone or installs a truncated one. *)
Lemma onConvert_settle_history
  (r : Render) (uuid : string) (o : HttpOutcome) (s : AppState) :
  history (state_of (onConvert_settle r uuid o s)) = history s
  \/ exists x items,
       history (state_of (onConvert_settle r uuid o s))
       = VArr (firstn 50 (x :: items)).
Proof.
  destruct (axios_settled o) as [resp | e] eqn:Ho.
  - destruct o as [err | status data]; [discriminate Ho | ].
    assert (Hs : status_ok status = true).
    { cbn [axios_settled] in Ho.
      destruct (status_ok status); [reflexivity | discriminate Ho]. }
    destruct (nullish data) eqn:Hd.
    + left. now rewrite onConvert_settle_no_payload.
    + destruct (spread (r_history r)) as [items | e] eqn:Hh.
      * right. rewrite (onConvert_settle_success _ _ _ _ items _ Hs Hd Hh).
        cbn [state_of history set_loading set_history]. eauto.
      * left. now rewrite (onConvert_settle_not_iterable _ _ _ _ e _ Hs Hd Hh).
  - left. now rewrite (onConvert_settle_rejected _ _ _ e).
Qed.

Lemma fetchCurrencies_settle_history
  (c : bool) (o : HttpOutcome) (s : AppState) :
  history (state_of (fetchCurrencies_settle c o s)) = history s.
Proof.
  unfold fetchCurrencies_settle, try_finally, try_catch, bind, lift, ret.
  destruct (axios_settled o) as [resp | e]; destruct c; cbn; try reflexivity.
  destruct (get_field resp "data") as [payload | e]; cbn; try reflexivity.
  destruct (get_field payload "data") as [d | e]; reflexivity.
Qed.

Lemma log_within_firstn (n : nat) (l : list value) :
  log_within n (VArr (firstn n l)).
Proof. cbn. apply firstn_le_length. Qed.

Section Runs.

Variable env : option string.

Lemma step_Submit_accepted (sys : System) :
  amount_accepted (amount (app sys)) = true ->
  step env Submit sys =
  mkSystem
    (set_rate VNull (set_result VNull (set_loading true (app sys))))
    (trace sys ++
       [PreventDefault;
        AxiosGet (String.append (API_BASE env) "/api/convert")
                 (convert_params (render (app sys)))])
    (inflight sys ++ [render (app sys)])
    (catalog_pending sys) (cancelled sys).
Proof.
  intros H. cbn [step]. unfold after.
  rewrite onConvert_submit_cases. cbn [render r_amount]. rewrite H.
  reflexivity.
Qed.

Lemma step_ConvertSettles (sys : System) (k : nat) (r : Render)
  (uuid : string) (o : HttpOutcome) :
  nth_error (inflight sys) k = Some r ->
  step env (ConvertSettles k uuid o) sys =
  mkSystem (state_of (onConvert_settle r uuid o (app sys)))
           (trace sys ++ effects_of (onConvert_settle r uuid o (app sys)))
           (remove_nth k (inflight sys))
           (catalog_pending sys) (cancelled sys).
Proof.
  intros H. cbn [step]. rewrite H. unfold after.
  destruct (onConvert_settle r uuid o (app sys)). reflexivity.
Qed.

(** Every event leaves the log alone or installs one within the cap. *)
Lemma step_history (a : Action) (sys : System) :
  history (app (step env a sys)) = history (app sys)
  \/ log_within 50 (history (app (step env a sys))).
Proof.
  destruct a; cbn [step]; try (left; reflexivity).
  - (* Submit *)
    left. unfold after. rewrite onConvert_submit_cases.
    destruct (amount_accepted _); reflexivity.
  - (* Clear *)
    right. cbn. lia.
  - (* ConvertSettles *)
    destruct (nth_error (inflight sys) k) as [r | ] eqn:Hk;
      [ | left; reflexivity].
    unfold after.
    destruct (onConvert_settle_history r uuid o (app sys))
      as [H | (x & items & H)];
      destruct (onConvert_settle r uuid o (app sys));
      cbn [state_of app] in H |- *.
    + now left.
    + right. rewrite H. apply log_within_firstn.
  - (* CatalogSettles *)
    left. destruct (catalog_pending sys); [ | reflexivity].
    unfold after.
    pose proof (fetchCurrencies_settle_history (cancelled sys) o (app sys))
      as H.
    destruct (fetchCurrencies_settle (cancelled sys) o (app sys)).
    exact H.
Qed.

Lemma run_history_bounded (acts : list Action) :
  forall sys,
    log_within 50 (history (app sys)) ->
    log_within 50 (history (app (run env acts sys))).
Proof.
  induction acts as [ | a acts IH]; intros sys H; [exact H | ].
  cbn [run fold_left]. apply IH.
  destruct (step_history a sys) as [E | B]; [now rewrite E | exact B].
Qed.

End Runs.

(** C3, as the code has it. The first render installs the value the
    history initialiser returned as it is, with no truncation; from a
    loaded log of at most 50 entries every state reached later has a log of
    at most 50 entries. Clear installs the empty log, and a settling
    conversion leaves the log alone or installs one of at most 50 entries
    whatever the length before. *)
Theorem history_bounded_once_loaded_within_cap
  (env : option string) (stored : value) (acts : list Action) :
  history (app (mount env stored)) = stored
  /\ (log_within 50 stored ->
      log_within 50 (history (app (run env acts (mount env stored)))))
  /\ (forall sys, history (app (step env Clear sys)) = VArr [])
  /\ (forall sys k uuid o,
        history (app (step env (ConvertSettles k uuid o) sys))
        = history (app sys)
        \/ log_within 50
             (history (app (step env (ConvertSettles k uuid o) sys)))).
Proof.
  split; [reflexivity | ]. split; [ | split].
  - intros H. now apply run_history_bounded.
  - reflexivity.
  - intros sys k uuid o. apply step_history.
Qed.

Lemma history_bounded_once_loaded_within_cap_witness :
  log_within 50
    (history (app (run None [Submit; Clear; Swap]
                     (mount None (VArr [VNull; VNull]))))).
Proof.
  destruct (history_bounded_once_loaded_within_cap None
              (VArr [VNull; VNull]) [Submit; Clear; Swap]) as (_ & T & _).
  apply T. cbn. lia.
Defined.

(** C3 as stated fails at the initial load: a slot holding an array of 51
    entries is parsed and installed whole, so the first render has a log
    of 51 entries. *)
Lemma load_installs_51_entries :
  load_history (fun _ => Normal (Some stored_51)) JSON.parse
  = Normal (VArr parsed_51)
  /\ history (app (mount None (VArr parsed_51))) = VArr parsed_51
  /\ log_length (history (app (mount None (VArr parsed_51)))) = Some 51%nat
  /\ ~ log_within 50 (history (app (mount None (VArr parsed_51)))).
Proof.
  split; [vm_compute; reflexivity | ].
  split; [reflexivity | ]. split; [reflexivity | ].
  cbn. lia.
Qed.

(** ** Conversions one after the other *)

Section Sequential.

Variable env : option string.

Lemma firstn_app_firstn {A : Type} (n : nat) (x y : list A) :
  firstn n (x ++ firstn n y) = firstn n (x ++ y).
Proof.
  rewrite !firstn_app, firstn_firstn.
  now rewrite Nat.min_l by lia.
Qed.

(** One conversion, from a state with nothing in flight. *)
Lemma run_conversion (c : Conversion) (sys : System) (l : list value) :
  cv_successful c = true ->
  inflight sys = [] ->
  history (app sys) = VArr l ->
  inflight (run env (convert_actions c) sys) = []
  /\ history (app (run env (convert_actions c) sys))
     = VArr (firstn 50 (cv_entry c :: l)).
Proof.
  unfold cv_successful. intros Hc Hi Hh.
  apply andb_true_iff in Hc. destruct Hc as [Hc Hd].
  apply andb_true_iff in Hc. destruct Hc as [Ha Hs].
  apply negb_true_iff in Hd.
  unfold convert_actions, run. cbn [fold_left].
  set (sys3 := step env (ChangeAmount (cv_amount c))
                 (step env (ChangeTo (cv_to c))
                    (step env (ChangeFrom (cv_from c)) sys))).
  assert (E3 : app sys3
               = set_amount (cv_amount c)
                   (set_to (cv_to c) (set_from (cv_from c) (app sys))))
    by reflexivity.
  assert (I3 : inflight sys3 = inflight sys) by reflexivity.
  rewrite step_Submit_accepted by (rewrite E3; exact Ha).
  rewrite (step_ConvertSettles _ _ 0 (render (app sys3)))
    by (cbn [inflight]; rewrite I3, Hi; reflexivity).
  cbn [inflight app]. rewrite I3, Hi.
  split; [reflexivity | ].
  rewrite (onConvert_settle_success _ _ _ _ l _ Hs Hd)
    by (rewrite E3; cbn; rewrite Hh; reflexivity).
  cbn [state_of history set_loading set_history].
  rewrite E3. reflexivity.
Qed.

(** The log after one or more conversions: the new entries, newest
    first, in front of the old log, cut to 50. *)
Lemma run_conversions (cs : list Conversion) :
  forall (c : Conversion) (sys : System) (l : list value),
    forallb cv_successful (c :: cs) = true ->
    inflight sys = [] ->
    history (app sys) = VArr l ->
    inflight (run env (List.concat (map convert_actions (c :: cs))) sys)
    = []
    /\ history
         (app (run env (List.concat (map convert_actions (c :: cs))) sys))
       = VArr (firstn 50 (rev (map cv_entry (c :: cs)) ++ l)).
Proof.
  induction cs as [ | c' cs IH]; intros c sys l Hc Hi Hh;
    cbn [forallb] in Hc; apply andb_true_iff in Hc; destruct Hc as [Hc Hcs];
    destruct (run_conversion c sys l Hc Hi Hh) as [Hi1 Hh1].
  - cbn [map List.concat rev]. rewrite !app_nil_r. cbn [app].
    split; assumption.
  - change (List.concat (map convert_actions (c :: c' :: cs)))
      with (convert_actions c
              ++ List.concat (map convert_actions (c' :: cs))).
    unfold run. rewrite fold_left_app.
    destruct (IH c' _ _ Hcs Hi1 Hh1) as [Hi2 Hh2].
    split; [exact Hi2 | ].
    unfold run in Hh2. rewrite Hh2. f_equal.
    rewrite firstn_app_firstn.
    change (map cv_entry (c :: c' :: cs))
      with (cv_entry c :: map cv_entry (c' :: cs)).
    cbn [rev]. now rewrite <- !app_assoc.
Qed.

End Sequential.

(** C2. After more than 50 successful conversions run one after the other,
    from any log, the log holds exactly the entries of the last 50 of
    them, the newest first: it is the first 50 of the appended entries
    listed in reverse order of appending. *)
Theorem more_than_50_conversions_keep_newest_50
  (env : option string) (sys : System) (l : list value)
  (cs : list Conversion) :
  inflight sys = [] ->
  history (app sys) = VArr l ->
  forallb cv_successful cs = true ->
  (50 < List.length cs)%nat ->
  let final := history (app (run env (List.concat (map convert_actions cs)) sys)) in
  final = VArr (firstn 50 (rev (map cv_entry cs)))
  /\ final = VArr (rev (skipn (List.length cs - 50) (map cv_entry cs)))
  /\ log_length final = Some 50%nat.
Proof.
  intros Hi Hh Hc Hn. cbv zeta.
  destruct cs as [ | c cs]; [cbn in Hn; lia | ].
  destruct (run_conversions env cs c sys l Hc Hi Hh) as [_ ->].
  assert (Hlen : (50 <= List.length (rev (map cv_entry (c :: cs))))%nat)
    by (rewrite length_rev, length_map; lia).
  assert (E : firstn 50 (rev (map cv_entry (c :: cs)) ++ l)
              = firstn 50 (rev (map cv_entry (c :: cs)))).
  { rewrite firstn_app.
    replace (50 - List.length (rev (map cv_entry (c :: cs))))%nat
      with 0%nat by lia.
    now rewrite firstn_O, app_nil_r. }
  rewrite E. split; [reflexivity | ]. split.
  - f_equal. rewrite firstn_rev. now rewrite length_map.
  - cbn [log_length]. f_equal. rewrite length_firstn. lia.
Qed.

Lemma more_than_50_conversions_keep_newest_50_witness :
  let data := VObj [("result", VNum (Number "2790"));
                    ("rate", VNum (Number "279"));
                    ("fetchedAt", VStr "T1")] in
  let cs := map (fun n => mkConversion "USD" "PKR" "10"
                            (String.concat "" (repeat "x" n)) 200 data)
                (seq 1 51) in
  log_length
    (history (app (run None (List.concat (map convert_actions cs))
                     (mount None (VArr [VNull])))))
  = Some 50%nat.
Proof.
  cbv zeta.
  refine (proj2 (proj2
    (more_than_50_conversions_keep_newest_50 None
       (mount None (VArr [VNull])) [VNull]
       (map (fun n => mkConversion "USD" "PKR" "10"
                        (String.concat "" (repeat "x" n)) 200
                        (VObj [("result", VNum (Number "2790"));
                               ("rate", VNum (Number "279"));
                               ("fetchedAt", VStr "T1")]))
            (seq 1 51))
       eq_refl eq_refl _ _))).
  - vm_compute. reflexivity.
  - vm_compute. repeat constructor.
Defined.

(** ** Overlapping submissions *)

Lemma fetchCurrencies_settle_loading
  (c : bool) (o : HttpOutcome) (s : AppState) :
  loading (state_of (fetchCurrencies_settle c o s)) = loading s.
Proof.
  unfold fetchCurrencies_settle, try_finally, try_catch, bind, lift, ret.
  destruct (axios_settled o) as [resp | e]; destruct c; cbn; try reflexivity.
  destruct (get_field resp "data") as [payload | e]; cbn; try reflexivity.
  destruct (get_field payload "data") as [d | e]; reflexivity.
Qed.

Lemma ui_step_one_at_a_time
  (env : option string) (a : Action) (s : System) :
  one_at_a_time s -> one_at_a_time (ui_step env a s).
Proof.
  intros I. unfold ui_step.
  destruct (enabled a s) eqn:En; [ | exact I].
  destruct a; cbn [step]; try exact I.
  - (* Submit *)
    cbn [enabled] in En. apply andb_true_iff in En. destruct En as [_ En].
    apply negb_true_iff in En. unfold submit_disabled in En.
    apply orb_false_iff in En. destruct En as [Hl _].
    destruct I as [I | (r & _ & I)]; [ | congruence].
    unfold after. rewrite onConvert_submit_cases.
    destruct (amount_accepted _); cbn.
    + right. rewrite I. eexists. split; reflexivity.
    + now left.
  - (* ConvertSettles *)
    destruct I as [I | (r & I & Hl)]; rewrite I.
    + destruct k; exact (or_introl I).
    + destruct k as [ | k]; cbn [nth_error].
      * left. reflexivity.
      * destruct k; right; exists r; split; assumption.
  - (* CatalogSettles *)
    destruct (catalog_pending s); [ | exact I].
    unfold after.
    pose proof (fetchCurrencies_settle_loading (cancelled s) o (app s)) as L.
    destruct (fetchCurrencies_settle (cancelled s) o (app s)).
    cbn in L. unfold one_at_a_time. cbn. now rewrite L.
Qed.

Lemma ui_run_one_at_a_time (env : option string) (acts : list Action) :
  forall s, one_at_a_time s -> one_at_a_time (ui_run env acts s).
Proof.
  induction acts as [ | a acts IH]; intros s I; [exact I | ].
  cbn [ui_run fold_left]. apply IH. now apply ui_step_one_at_a_time.
Qed.

(** C4, as the code has it. [onConvert] carries no request token; what
    keeps submissions from overlapping is the view: through it at most one
    convert request is ever in flight, and while one is the submit button
    is disabled. If a second submission is made all the same while the
    first request is in flight, and the second request is answered before
    the first, both successfully, then each response is applied in full
    when it arrives, on the values its call captured: in the end [result]
    and [rate] are those of the first request's response and the log is the
    first request's entry in front of the log captured at its submission,
    cut to 50. *)
Theorem overlapping_conversions_apply_in_completion_order
  (env : option string) (sys : System) (l : list value)
  (f2 t2 a2 uuid1 uuid2 : string) (st1 st2 : Z) (d1 d2 : value) :
  inflight sys = [] ->
  history (app sys) = VArr l ->
  amount_accepted (amount (app sys)) = true ->
  amount_accepted a2 = true ->
  status_ok st1 = true -> nullish d1 = false ->
  status_ok st2 = true -> nullish d2 = false ->
  let first := render (app sys) in
  let sys1 := step env Submit sys in
  let final :=
    run env [ChangeFrom f2; ChangeTo t2; ChangeAmount a2; Submit;
             ConvertSettles 1 uuid2 (HttpResponse st2 d2);
             ConvertSettles 0 uuid1 (HttpResponse st1 d1)] sys1 in
  (forall stored acts,
      let seen := ui_run env acts (mount env stored) in
      (List.length (inflight seen) <= 1)%nat
      /\ (inflight seen <> [] -> submit_disabled (app seen) = true))
  /\ submit_disabled (app sys1) = true
  /\ result (app final) = field "result" d1
  /\ rate (app final) = field "rate" d1
  /\ history (app final)
     = VArr (firstn 50
               (make_record uuid1 first (field "result" d1)
                  (field "rate" d1) (field "fetchedAt" d1) :: l))
  /\ loading (app final) = false
  /\ inflight final = [].
Proof.
  intros Hi Hh Ha1 Ha2 Hs1 Hd1 Hs2 Hd2. cbv zeta.
  split.
  { intros stored acts.
    destruct (ui_run_one_at_a_time env acts (mount env stored)
                (or_introl eq_refl)) as [I | (r & I & Hl)]; rewrite I.
    - split; [cbn; lia | congruence].
    - split; [cbn; lia | ]. intros _. unfold submit_disabled.
      now rewrite Hl. }
  rewrite (step_Submit_accepted env sys Ha1). rewrite Hi. cbn [app].
  split; [reflexivity | ].
  unfold run. cbn [fold_left].
  set (r1 := render (app sys)).
  set (sys4 := step env (ChangeAmount a2) (step env (ChangeTo t2)
                 (step env (ChangeFrom f2) _))).
  assert (E4 : app sys4
               = set_amount a2 (set_to t2 (set_from f2
                   (set_rate VNull (set_result VNull
                      (set_loading true (app sys)))))))
    by reflexivity.
  assert (I4 : inflight sys4 = [r1]) by reflexivity.
  rewrite step_Submit_accepted by (rewrite E4; exact Ha2).
  rewrite I4.
  rewrite (step_ConvertSettles _ _ 1 (render (app sys4))) by reflexivity.
  cbn [app inflight remove_nth app].
  rewrite (onConvert_settle_success _ uuid2 st2 d2 l _ Hs2 Hd2)
    by (rewrite E4; cbn; rewrite Hh; reflexivity).
  cbn [state_of effects_of].
  rewrite (step_ConvertSettles _ _ 0 r1) by reflexivity.
  cbn [app inflight remove_nth].
  rewrite (onConvert_settle_success _ uuid1 st1 d1 l _ Hs1 Hd1)
    by (unfold r1; cbn; rewrite Hh; reflexivity).
  cbn [state_of]. repeat split.
Qed.

Lemma overlapping_conversions_apply_in_completion_order_witness :
  let d1 := VObj [("result", VNum (Number "2790"));
                  ("rate", VNum (Number "279")); ("fetchedAt", VStr "T1")] in
  let d2 := VObj [("result", VNum (Number "5580"));
                  ("rate", VNum (Number "279")); ("fetchedAt", VStr "T2")] in
  let sys := step None (ChangeAmount "10") (mount None (VArr [])) in
  let final :=
    run None [ChangeFrom "USD"; ChangeTo "PKR"; ChangeAmount "20"; Submit;
              ConvertSettles 1 "id-2" (HttpResponse 200 d2);
              ConvertSettles 0 "id-1" (HttpResponse 200 d1)]
        (step None Submit sys) in
  result (app final) = VNum (Number "2790")
  /\ rate (app final) = VNum (Number "279").
Proof.
  cbv zeta.
  pose proof (overlapping_conversions_apply_in_completion_order None
                (step None (ChangeAmount "10") (mount None (VArr []))) []
                "USD" "PKR" "20" "id-1" "id-2" 200 200
                (VObj [("result", VNum (Number "2790"));
                       ("rate", VNum (Number "279"));
                       ("fetchedAt", VStr "T1")])
                (VObj [("result", VNum (Number "5580"));
                       ("rate", VNum (Number "279"));
                       ("fetchedAt", VStr "T2")])
                eq_refl eq_refl eq_refl eq_refl
                eq_refl eq_refl eq_refl eq_refl) as T.
  cbv zeta in T. destruct T as (_ & _ & T1 & T2 & _).
  split; assumption.
Defined.

(** C4 as stated fails: 10 USD is submitted, then 20 USD while the first
    request is in flight; the second answer (5580) arrives first, the first
    (2790) last. The state ends with the result of the request issued
    first, and the log holds its entry alone: the entry of the request
    issued last is gone. *)
Lemma earlier_request_overwrites_later_one :
  let d1 := VObj [("result", VNum (Number "2790"));
                  ("rate", VNum (Number "279")); ("fetchedAt", VStr "T1")] in
  let d2 := VObj [("result", VNum (Number "5580"));
                  ("rate", VNum (Number "279")); ("fetchedAt", VStr "T2")] in
  let final :=
    run None [ChangeAmount "10"; Submit; ChangeAmount "20"; Submit;
              ConvertSettles 1 "id-2" (HttpResponse 200 d2);
              ConvertSettles 0 "id-1" (HttpResponse 200 d1)]
        (mount None (VArr [])) in
  result (app final) = VNum (Number "2790")
  /\ result (app final) <> field "result" d2
  /\ history (app final) =
       VArr [VObj [("id", VStr "id-1"); ("from", VStr "USD");
                   ("to", VStr "PKR"); ("amount", VNum (Number "10"));
                   ("result", VNum (Number "2790"));
                   ("rate", VNum (Number "279")); ("at", VStr "T1")]]
  /\ inflight final = [].
Proof.
  vm_compute. repeat split. discriminate.
Qed.

(** * Further properties of the handlers *)

(** ** [onConvert] when its request settles *)

(** The three ways [onConvert] can end once the request has settled. *)
Lemma onConvert_settle_cases
  (r : Render) (uuid : string) (o : HttpOutcome) (s : AppState) :
  (exists e,
      onConvert_settle r uuid o s
      = mkOutcome (Normal tt) (set_loading false s)
          [ConsoleError e; Alert failure_notice])
  \/ (exists status data items,
        o = HttpResponse status data
        /\ status_ok status = true
        /\ nullish data = false
        /\ spread (r_history r) = Normal items
        /\ onConvert_settle r uuid o s
           = mkOutcome (Normal tt)
               (set_loading false
                  (set_history
                     (VArr (firstn 50
                              (make_record uuid r (field "result" data)
                                 (field "rate" data)
                                 (field "fetchedAt" data) :: items)))
                     (set_rate (field "rate" data)
                        (set_result (field "result" data) s))))
               [])
  \/ (exists status data e,
        o = HttpResponse status data
        /\ status_ok status = true
        /\ nullish data = false
        /\ spread (r_history r) = Throw e
        /\ onConvert_settle r uuid o s
           = mkOutcome (Normal tt)
               (set_loading false
                  (set_rate (field "rate" data)
                     (set_result (field "result" data) s)))
               [ConsoleError e; Alert failure_notice]).
Proof.
  destruct (axios_settled o) as [resp | e] eqn:Ho.
  - destruct o as [err | status data]; [discriminate Ho | ].
    assert (Hs : status_ok status = true).
    { cbn [axios_settled] in Ho.
      destruct (status_ok status); [reflexivity | discriminate Ho]. }
    destruct (nullish data) eqn:Hd.
    + left. eexists. now apply onConvert_settle_no_payload.
    + destruct (spread (r_history r)) as [items | e] eqn:Hh.
      * right; left. exists status, data, items.
        repeat split; try assumption. now apply onConvert_settle_success.
      * right; right. exists status, data, e.
        repeat split; try assumption.
        now apply onConvert_settle_not_iterable.
  - left. exists e. now apply onConvert_settle_rejected.
Qed.

(** X1. Whatever the request settles with, [onConvert] completes normally
    (nothing escapes its [catch]), ends with [loading] cleared, leaves
    [from], [to], [amount], the catalog and [loadingCurrencies] alone, and
    its effects are either none or the logged error followed by the
    failure notice. *)
Theorem onConvert_settle_always_completes
  (r : Render) (uuid : string) (o : HttpOutcome) (s : AppState) :
  let done := onConvert_settle r uuid o s in
  completion_of done = Normal tt
  /\ loading (state_of done) = false
  /\ from (state_of done) = from s
  /\ to (state_of done) = to s
  /\ amount (state_of done) = amount s
  /\ currencies (state_of done) = currencies s
  /\ loadingCurrencies (state_of done) = loadingCurrencies s
  /\ (effects_of done = []
      \/ exists e, effects_of done = [ConsoleError e; Alert failure_notice]).
Proof.
  cbv zeta.
  destruct (onConvert_settle_cases r uuid o s)
    as [(e & ->) | [(st & d & items & _ & _ & _ & _ & ->)
                   | (st & d & e & _ & _ & _ & _ & ->)]];
    cbn [completion_of state_of effects_of loading from to amount currencies
         loadingCurrencies set_loading set_history set_rate set_result];
    repeat split; eauto.
Qed.

(** X2. When the captured log cannot be spread (it is neither an array nor
    a string), a good response is applied half way: [result] and [rate]
    are set from it, then line 71 throws, so the error is logged, the
    failure notice is shown and the log stays as it was. *)
Theorem onConvert_success_on_unspreadable_log
  (r : Render) (uuid : string) (status : Z) (data e : value) (s : AppState) :
  status_ok status = true ->
  nullish data = false ->
  spread (r_history r) = Throw e ->
  let done := onConvert_settle r uuid (HttpResponse status data) s in
  result (state_of done) = field "result" data
  /\ rate (state_of done) = field "rate" data
  /\ history (state_of done) = history s
  /\ loading (state_of done) = false
  /\ effects_of done = [ConsoleError e; Alert failure_notice].
Proof.
  intros Hs Hd Hh. cbv zeta.
  rewrite (onConvert_settle_not_iterable r uuid status data e s Hs Hd Hh).
  cbn. repeat split.
Qed.

Lemma onConvert_success_on_unspreadable_log_witness :
  let s := initial_state (VObj [("length", VNum (Number "0"))]) in
  let data := VObj [("result", VNum (Number "2790"));
                    ("rate", VNum (Number "279"));
                    ("fetchedAt", VStr "T1")] in
  let done := onConvert_settle (render s) "id-1" (HttpResponse 200 data) s in
  result (state_of done) = VNum (Number "2790")
  /\ history (state_of done) = history s
  /\ effects_of done
     = [ConsoleError (TypeError "not iterable"); Alert failure_notice].
Proof.
  cbv zeta.
  pose proof (onConvert_success_on_unspreadable_log
                (render (initial_state (VObj [("length", VNum (Number "0"))])))
                "id-1" 200
                (VObj [("result", VNum (Number "2790"));
                       ("rate", VNum (Number "279"));
                       ("fetchedAt", VStr "T1")])
                (TypeError "not iterable")
                (initial_state (VObj [("length", VNum (Number "0"))]))
                eq_refl eq_refl eq_refl) as T.
  cbv zeta in T. destruct T as (T1 & _ & T2 & _ & T3).
  repeat split; assumption.
Defined.

(** ** Amounts made of white space *)

Lemma Number_white_space (a : string) :
  white_space_only a = true -> Number a = pos_zero.
Proof.
  unfold white_space_only, Number, StringToNumber, trim. intros H.
  destruct (strip_front (list_ascii_of_string a)); [reflexivity | ].
  discriminate H.
Qed.

(** X3. An amount text that is not empty and holds white space only passes
    the guard: [Number] turns it into [+0], so a request with [amount: 0]
    is issued and [loading] is set. *)
Theorem onConvert_submits_white_space_as_zero
  (env : option string) (s : AppState) :
  amount s <> "" ->
  white_space_only (amount s) = true ->
  onConvert_submit env (render s) s
  = mkOutcome (Normal true)
      (set_rate VNull (set_result VNull (set_loading true s)))
      [PreventDefault;
       AxiosGet (String.append (API_BASE env) "/api/convert")
                [("from", VStr (from s)); ("to", VStr (to s));
                 ("amount", VNum pos_zero)]].
Proof.
  intros Hne Hws.
  rewrite onConvert_submit_cases. unfold amount_accepted, convert_params.
  cbn [render r_amount r_from r_to].
  rewrite (Number_white_space _ Hws).
  destruct (String.eqb_spec (amount s) "") as [E | _]; [contradiction | ].
  cbn [truthy]. destruct (String.eqb_spec (amount s) ""); [contradiction | ].
  reflexivity.
Qed.

Lemma onConvert_submits_white_space_as_zero_witness :
  let s := set_amount "  " (initial_state (VArr [])) in
  effects_of (onConvert_submit None (render s) s)
  = [PreventDefault;
     AxiosGet "http://localhost:5174/api/convert"
              [("from", VStr "USD"); ("to", VStr "PKR");
               ("amount", VNum pos_zero)]].
Proof.
  cbv zeta.
  rewrite (onConvert_submits_white_space_as_zero None
             (set_amount "  " (initial_state (VArr []))));
    [reflexivity | discriminate | reflexivity].
Defined.

(** ** How the handlers compose *)

(** X4. Clearing the history while a conversion is in flight does not
    last: when the response arrives, the log becomes the new entry in
    front of the log captured at submission, so the cleared entries are
    back. *)
Theorem clear_in_flight_is_undone
  (env : option string) (sys : System) (l : list value)
  (uuid : string) (status : Z) (data : value) :
  inflight sys = [] ->
  history (app sys) = VArr l ->
  amount_accepted (amount (app sys)) = true ->
  status_ok status = true ->
  nullish data = false ->
  let cleared := step env Clear (step env Submit sys) in
  let final :=
    step env (ConvertSettles 0 uuid (HttpResponse status data)) cleared in
  history (app cleared) = VArr []
  /\ history (app final)
     = VArr (firstn 50
               (make_record uuid (render (app sys)) (field "result" data)
                  (field "rate" data) (field "fetchedAt" data) :: l)).
Proof.
  intros Hi Hh Ha Hs Hd. cbv zeta.
  rewrite (step_Submit_accepted env sys Ha). rewrite Hi.
  split; [reflexivity | ].
  rewrite (step_ConvertSettles _ _ 0 (render (app sys))) by reflexivity.
  cbn [app].
  rewrite (onConvert_settle_success _ uuid status data l _ Hs Hd)
    by (cbn; rewrite Hh; reflexivity).
  reflexivity.
Qed.

Lemma clear_in_flight_is_undone_witness :
  let old := VObj [("id", VStr "id-0")] in
  let sys := mount None (VArr [old]) in
  let data := VObj [("result", VNum (Number "279"));
                    ("rate", VNum (Number "279"));
                    ("fetchedAt", VStr "T1")] in
  exists entry,
    history (app (run None [Submit; Clear;
                            ConvertSettles 0 "id-1" (HttpResponse 200 data)]
                    sys))
    = VArr [entry; old].
Proof.
  cbv zeta. eexists.
  exact (proj2 (clear_in_flight_is_undone None
                  (mount None (VArr [VObj [("id", VStr "id-0")]]))
                  [VObj [("id", VStr "id-0")]] "id-1" 200
                  (VObj [("result", VNum (Number "279"));
                         ("rate", VNum (Number "279"));
                         ("fetchedAt", VStr "T1")])
                  eq_refl eq_refl eq_refl eq_refl eq_refl)).
Defined.

(** X5. Swapping twice gives back the original pair: [from] and [to] are
    as before, [result] and [rate] are cleared, and nothing else has
    changed. *)
Theorem swap_twice_restores_pair (env : option string) (sys : System) :
  let twice := step env Swap (step env Swap sys) in
  from (app twice) = from (app sys)
  /\ to (app twice) = to (app sys)
  /\ result (app twice) = VNull
  /\ rate (app twice) = VNull
  /\ amount (app twice) = amount (app sys)
  /\ history (app twice) = history (app sys)
  /\ currencies (app twice) = currencies (app sys)
  /\ inflight twice = inflight sys.
Proof. cbn. repeat split. Qed.

(** X6. The form stays editable while a conversion is in flight, and the
    response does not look at it: the history entry records the pair and
    the amount of the submission, while the result panel shows the new
    result next to the amount and the pair typed since. *)
Theorem edits_in_flight_show_old_result_with_new_inputs
  (env : option string) (sys : System) (l : list value)
  (a2 f2 t2 uuid : string) (status : Z) (data : value) (x : number) :
  inflight sys = [] ->
  history (app sys) = VArr l ->
  amount_accepted (amount (app sys)) = true ->
  status_ok status = true ->
  field "result" data = VNum x ->
  not_null (field "rate" data) = true ->
  let final :=
    run env [Submit; ChangeAmount a2; ChangeFrom f2; ChangeTo t2;
             ConvertSettles 0 uuid (HttpResponse status data)] sys in
  result_panel (app final)
  = Normal (Some (mkResultPanel a2 f2 t2 (field "rate" data) (VNum x)))
  /\ exists rest,
       history (app final)
       = VArr (VObj [("id", VStr uuid);
                     ("from", VStr (from (app sys)));
                     ("to", VStr (to (app sys)));
                     ("amount", VNum (Number (amount (app sys))));
                     ("result", VNum x);
                     ("rate", field "rate" data);
                     ("at", field "fetchedAt" data)] :: rest).
Proof.
  intros Hi Hh Ha Hs Hr Hrt. cbv zeta.
  assert (Hd : nullish data = false).
  { destruct data; try reflexivity; discriminate Hr. }
  unfold run. cbn [fold_left].
  rewrite (step_Submit_accepted env sys Ha). rewrite Hi.
  set (r1 := render (app sys)).
  set (sys4 := step env (ChangeTo t2) (step env (ChangeFrom f2)
                 (step env (ChangeAmount a2) _))).
  assert (I4 : inflight sys4 = [r1]) by reflexivity.
  assert (E4 : app sys4
               = set_to t2 (set_from f2 (set_amount a2
                   (set_rate VNull (set_result VNull
                      (set_loading true (app sys)))))))
    by reflexivity.
  rewrite (step_ConvertSettles _ _ 0 r1) by (rewrite I4; reflexivity).
  cbn [app].
  rewrite (onConvert_settle_success _ uuid status data l _ Hs Hd)
    by (unfold r1; cbn; rewrite Hh; reflexivity).
  rewrite E4, Hr. cbn [state_of]. split.
  - unfold result_panel. cbn. rewrite Hrt. cbn. reflexivity.
  - eexists. unfold make_record, r1. cbn [history set_loading set_history].
    rewrite firstn_cons. reflexivity.
Qed.

Lemma edits_in_flight_show_old_result_with_new_inputs_witness :
  let data := VObj [("result", VNum (Number "2790"));
                    ("rate", VNum (Number "279"));
                    ("fetchedAt", VStr "T1")] in
  let final :=
    run None [Submit; ChangeAmount "5"; ChangeFrom "EUR"; ChangeTo "GBP";
              ConvertSettles 0 "id-1" (HttpResponse 200 data)]
        (mount None (VArr [])) in
  result_panel (app final)
  = Normal (Some (mkResultPanel "5" "EUR" "GBP" (VNum (Number "279"))
                                (VNum (Number "2790")))).
Proof.
  cbv zeta.
  exact (proj1 (edits_in_flight_show_old_result_with_new_inputs None
                  (mount None (VArr [])) [] "5" "EUR" "GBP" "id-1" 200
                  (VObj [("result", VNum (Number "2790"));
                         ("rate", VNum (Number "279"));
                         ("fetchedAt", VStr "T1")])
                  (Number "2790")
                  eq_refl eq_refl eq_refl eq_refl eq_refl eq_refl)).
Defined.

(** ** The catalog fetch *)

(** The ways [fetchCurrencies] can end once its request has settled. *)
Lemma fetchCurrencies_settle_cases
  (c : bool) (o : HttpOutcome) (s : AppState) :
  let unstick (s : AppState) :=
    if c then s else set_loadingCurrencies false s in
  (exists e,
      fetchCurrencies_settle c o s
      = mkOutcome (Normal tt) (unstick s) [ConsoleError e])
  \/ (c = true
      /\ fetchCurrencies_settle c o s = mkOutcome (Normal tt) s [])
  \/ (exists status payload,
        c = false
        /\ o = HttpResponse status payload
        /\ status_ok status = true
        /\ nullish payload = false
        /\ fetchCurrencies_settle c o s
           = mkOutcome (Normal tt)
               (set_loadingCurrencies false
                  (set_currencies (or_else (field "data" payload) (VObj []))
                     s))
               []).
Proof.
  cbv zeta.
  unfold fetchCurrencies_settle, try_finally, try_catch, bind, lift, ret.
  destruct o as [err | status payload]; cbn [axios_settled].
  - left. exists err. destruct c; reflexivity.
  - destruct (status_ok status) eqn:Hs.
    + destruct c; cbn.
      * right; left. split; reflexivity.
      * destruct (nullish payload) eqn:Hp.
        -- left. rewrite (get_field_nullish _ _ Hp). eexists. reflexivity.
        -- right; right. exists status, payload.
           rewrite (get_field_field _ _ Hp). cbn. repeat split; assumption.
    + left. exists (AxiosError status). destruct c; reflexivity.
Qed.

(** X7. Whatever the catalog request settles with, [fetchCurrencies]
    completes normally, never shows an [alert], logs at most one error,
    and touches no cell but [currencies] and [loadingCurrencies]; as long
    as the view is mounted it always ends with [loadingCurrencies]
    cleared, so the form cannot stay blocked. *)
Theorem fetchCurrencies_settle_always_completes
  (c : bool) (o : HttpOutcome) (s : AppState) :
  let done := fetchCurrencies_settle c o s in
  completion_of done = Normal tt
  /\ (c = false -> loadingCurrencies (state_of done) = false)
  /\ (effects_of done = [] \/ exists e, effects_of done = [ConsoleError e])
  /\ from (state_of done) = from s
  /\ to (state_of done) = to s
  /\ amount (state_of done) = amount s
  /\ result (state_of done) = result s
  /\ rate (state_of done) = rate s
  /\ loading (state_of done) = loading s
  /\ history (state_of done) = history s.
Proof.
  cbv zeta.
  destruct (fetchCurrencies_settle_cases c o s)
    as [(e & ->) | [(-> & ->) | (st & p & -> & _ & _ & _ & ->)]];
    cbn [completion_of state_of effects_of];
    try (destruct c); cbn; repeat split; eauto; discriminate.
Qed.

(** X8. A catalog fetch that fails while the view is mounted (no response,
    a status outside 200..299, or a [null] or [undefined] payload) keeps
    the catalog it had, logs the error once with [console.error] and
    clears [loadingCurrencies]; the user gets no notice. *)
Theorem fetchCurrencies_failure_keeps_catalog
  (o : HttpOutcome) (s : AppState) :
  (exists err, o = NetworkError err)
  \/ (exists status payload,
        o = HttpResponse status payload
        /\ (status_ok status = false \/ nullish payload = true)) ->
  let done := fetchCurrencies_settle false o s in
  currencies (state_of done) = currencies s
  /\ loadingCurrencies (state_of done) = false
  /\ exists e, effects_of done = [ConsoleError e].
Proof.
  intros H. cbv zeta.
  destruct (fetchCurrencies_settle_cases false o s)
    as [(e & ->) | [(C & _) | (st & p & _ & -> & Hs & Hp & _)]].
  - cbn. repeat split. now exists e.
  - discriminate C.
  - exfalso. destruct H as [(err & E) | (st' & p' & E & [F | F])];
      inversion E; subst; congruence.
Qed.

Lemma fetchCurrencies_failure_keeps_catalog_witness :
  let s := initial_state (VArr []) in
  let done := fetchCurrencies_settle false (HttpResponse 503 VNull) s in
  currencies (state_of done) = VObj []
  /\ loadingCurrencies (state_of done) = false
  /\ exists e, effects_of done = [ConsoleError e].
Proof.
  cbv zeta.
  exact (fetchCurrencies_failure_keeps_catalog (HttpResponse 503 VNull)
           (initial_state (VArr []))
           (or_intror (ex_intro _ 503 (ex_intro _ VNull
              (conj eq_refl (or_introl eq_refl)))))).
Defined.

(** ** The component through its view *)

Lemma append_inj_l (p a b : string) :
  String.append p a = String.append p b -> a = b.
Proof.
  induction p as [ | c p IH]; cbn; intros H; [exact H | ].
  injection H as H. now apply IH.
Qed.

Lemma convert_is_not_catalog_request
  (env : option string) (params : list (string * value)) :
  is_catalog_request env
    (AxiosGet (String.append (API_BASE env) "/api/convert") params) = false.
Proof.
  cbn [is_catalog_request].
  destruct (String.eqb_spec (String.append (API_BASE env) "/api/convert")
              (String.append (API_BASE env) "/api/currencies")) as [E | _];
    [ | reflexivity].
  apply append_inj_l in E. discriminate E.
Qed.

(** What an event adds to the trace holds no catalog request. *)
Lemma step_adds_no_catalog_request
  (env : option string) (a : Action) (s : System) :
  exists es,
    trace (step env a s) = trace s ++ es
    /\ filter (is_catalog_request env) es = [].
Proof.
  destruct a; cbn [step];
    try (exists []; split; [cbn; now rewrite ?app_nil_r | reflexivity]).
  - (* Submit *)
    unfold after. rewrite onConvert_submit_cases.
    destruct (amount_accepted _); cbn; eexists; split; try reflexivity.
    cbn [filter]. now rewrite convert_is_not_catalog_request.
  - (* ConvertSettles *)
    destruct (nth_error (inflight s) k) as [r | ];
      [ | exists []; split; [now rewrite app_nil_r | reflexivity]].
    unfold after.
    destruct (onConvert_settle_cases r uuid o (app s))
      as [(e & ->) | [(st & d & items & _ & _ & _ & _ & ->)
                     | (st & d & e & _ & _ & _ & _ & ->)]];
      cbn; eexists; split; reflexivity.
  - (* CatalogSettles *)
    destruct (catalog_pending s);
      [ | exists []; split; [now rewrite app_nil_r | reflexivity]].
    unfold after.
    destruct (fetchCurrencies_settle_cases (cancelled s) o (app s))
      as [(e & ->) | [(_ & ->) | (st & p & _ & _ & _ & _ & ->)]];
      cbn; eexists; split; reflexivity.
Qed.

(** X9. The catalog is requested once, by the mount effect, and never
    again: whatever events follow, the trace holds exactly one request to
    [/api/currencies] (no retry after a failure, no refresh). *)
Theorem catalog_requested_exactly_once
  (env : option string) (stored : value) (acts : list Action) :
  filter (is_catalog_request env) (trace (run env acts (mount env stored)))
  = [AxiosGet (String.append (API_BASE env) "/api/currencies") []].
Proof.
  assert (G : forall s,
             filter (is_catalog_request env) (trace (run env acts s))
             = filter (is_catalog_request env) (trace s)).
  { induction acts as [ | a acts IH]; intros s; [reflexivity | ].
    cbn [run fold_left]. fold (run env acts (step env a s)). rewrite IH.
    destruct (step_adds_no_catalog_request env a s) as (es & -> & E).
    now rewrite filter_app, E, app_nil_r. }
  rewrite G. cbn. now rewrite String.eqb_refl.
Qed.

Lemma ui_step_pending (env : option string) (a : Action) (s : System) :
  catalog_pending (ui_step env a s) = true -> catalog_pending s = true.
Proof.
  unfold ui_step. destruct (enabled a s); [ | trivial].
  destruct a; cbn [step]; unfold after; try (cbn; trivial; fail).
  - rewrite onConvert_submit_cases. destruct (amount_accepted _); trivial.
  - destruct (nth_error (inflight s) k) as [r | ]; [ | trivial].
    destruct (onConvert_settle r uuid o (app s)). trivial.
  - destruct (catalog_pending s) eqn:E; intros H; congruence.
Qed.

Lemma ui_step_inert (env : option string) (a : Action) (s : System) :
  inert env s ->
  catalog_pending (ui_step env a s) = true ->
  inert env (ui_step env a s).
Proof.
  intros I. pose proof I as (Hlc & Hi & Hf & Ht & Hr & Hrt & Hl & Htr).
  unfold ui_step. destruct (enabled a s) eqn:En; [ | trivial].
  destruct a; cbn [step enabled] in *.
  - intros _. unfold inert, after. cbn. rewrite app_nil_r. now repeat split.
  - rewrite Hlc, andb_false_r in En. discriminate En.
  - rewrite Hlc, andb_false_r in En. discriminate En.
  - unfold submit_disabled in En.
    rewrite Hlc, orb_true_r, andb_false_r in En. discriminate En.
  - unfold submit_disabled in En.
    rewrite Hlc, orb_true_r, andb_false_r in En. discriminate En.
  - intros _. unfold inert, after. cbn. rewrite app_nil_r. now repeat split.
  - rewrite Hi. destruct k; trivial.
  - destruct (catalog_pending s); [ | trivial].
    unfold after. destruct (fetchCurrencies_settle _ _ _). discriminate.
  - intros _. exact I.
Qed.

(** X10. Through the view, nothing but the amount field and the Clear
    button works before the catalog fetch has settled: the pair is still
    USD and PKR, [result] and [rate] are [null], no conversion has been
    submitted, and the catalog request is the only request made. *)
Theorem form_inert_until_catalog_settles
  (env : option string) (stored : value) (acts : list Action) :
  let sys := ui_run env acts (mount env stored) in
  catalog_pending sys = true ->
  submit_disabled (app sys) = true
  /\ inflight sys = []
  /\ from (app sys) = "USD"
  /\ to (app sys) = "PKR"
  /\ result (app sys) = VNull
  /\ rate (app sys) = VNull
  /\ filter is_request (trace sys)
     = [AxiosGet (String.append (API_BASE env) "/api/currencies") []].
Proof.
  cbv zeta.
  assert (G : forall s,
             (catalog_pending s = true -> inert env s) ->
             catalog_pending (ui_run env acts s) = true ->
             inert env (ui_run env acts s)).
  { induction acts as [ | a acts IH]; intros s Hs; [exact Hs | ].
    cbn [ui_run fold_left]. apply IH. intros Hp.
    apply ui_step_inert; [ | exact Hp].
    apply Hs. exact (ui_step_pending env a s Hp). }
  intros Hp.
  destruct (G (mount env stored)
              (fun _ => ltac:(unfold inert; cbn; repeat split)) Hp)
    as (Hlc & Hi & Hf & Ht & Hr & Hrt & Hl & Htr).
  unfold submit_disabled. rewrite Hlc, orb_true_r. now repeat split.
Qed.

Lemma form_inert_until_catalog_settles_witness :
  let sys := ui_run None [ChangeAmount "5"; Submit; Swap; ChangeFrom "EUR"]
               (mount None (VArr [])) in
  inflight sys = [] /\ from (app sys) = "USD" /\ to (app sys) = "PKR".
Proof.
  cbv zeta.
  pose proof (form_inert_until_catalog_settles None (VArr [])
                [ChangeAmount "5"; Submit; Swap; ChangeFrom "EUR"]
                eq_refl) as T.
  cbv zeta in T. destruct T as (_ & T1 & T2 & T3 & _).
  repeat split; assumption.
Defined.

Lemma ui_step_loading_tracks_flight
  (env : option string) (a : Action) (s : System) :
  loading_tracks_flight s -> loading_tracks_flight (ui_step env a s).
Proof.
  intros I. unfold ui_step.
  destruct (enabled a s) eqn:En; [ | exact I].
  destruct a; cbn [step]; try exact I.
  - (* Submit *)
    cbn [enabled] in En. apply andb_true_iff in En. destruct En as [_ En].
    apply negb_true_iff in En. unfold submit_disabled in En.
    apply orb_false_iff in En. destruct En as [Hl _].
    destruct I as [[I _] | (r & _ & I)]; [ | congruence].
    unfold after. rewrite onConvert_submit_cases.
    destruct (amount_accepted _); cbn.
    + right. rewrite I. eexists. split; reflexivity.
    + left. now split.
  - (* ConvertSettles *)
    destruct I as [[I Hl] | (r & I & Hl)]; rewrite I.
    + destruct k; left; now split.
    + destruct k as [ | k]; cbn [nth_error].
      * left. unfold after.
        destruct (onConvert_settle_cases r uuid o (app s))
          as [(e & ->) | [(st & d & items & _ & _ & _ & _ & ->)
                         | (st & d & e & _ & _ & _ & _ & ->)]];
          now split.
      * destruct k; right; exists r; split; assumption.
  - (* CatalogSettles *)
    destruct (catalog_pending s); [ | exact I].
    unfold after.
    pose proof (fetchCurrencies_settle_loading (cancelled s) o (app s)) as L.
    destruct (fetchCurrencies_settle (cancelled s) o (app s)).
    cbn in L. unfold loading_tracks_flight. cbn. now rewrite L.
Qed.

(** X11. Through the view, [loading] is set exactly while a conversion is
    in flight, and at most one is: once the request has settled, however
    it ended, [loading] is clear again and the form can be submitted
    anew. *)
Theorem loading_exactly_while_in_flight
  (env : option string) (stored : value) (acts : list Action) :
  let sys := ui_run env acts (mount env stored) in
  (loading (app sys) = true <-> inflight sys <> [])
  /\ (List.length (inflight sys) <= 1)%nat.
Proof.
  cbv zeta.
  assert (G : forall s,
             loading_tracks_flight s ->
             loading_tracks_flight (ui_run env acts s)).
  { induction acts as [ | a acts IH]; intros s I; [exact I | ].
    cbn [ui_run fold_left]. apply IH.
    now apply ui_step_loading_tracks_flight. }
  destruct (G (mount env stored) (or_introl (conj eq_refl eq_refl)))
    as [[I Hl] | (r & I & Hl)]; rewrite I, Hl.
  - split; [ | cbn; lia]. split; [discriminate | congruence].
  - split; [ | cbn; lia]. split; [discriminate | reflexivity].
Qed.

(** ** Identifiers over a series of conversions *)

(** X12. Over a series of successful conversions run one after the other,
    the ids in the log stay pairwise distinct, provided
    [crypto.randomUUID()] never repeats itself nor an id already in the
    log the series starts from. *)
Theorem ids_stay_distinct_over_conversions
  (env : option string) (sys : System) (l : list value)
  (cs : list Conversion) :
  inflight sys = [] ->
  history (app sys) = VArr l ->
  forallb cv_successful cs = true ->
  NoDup (rev (map (fun c => VStr (cv_uuid c)) cs) ++ map (field "id") l) ->
  exists items,
    history (app (run env (List.concat (map convert_actions cs)) sys))
    = VArr items
    /\ NoDup (map (field "id") items).
Proof.
  intros Hi Hh Hc Hnd.
  destruct cs as [ | c cs].
  - exists l. split; [exact Hh | exact Hnd].
  - destruct (run_conversions env cs c sys l Hc Hi Hh) as [_ ->].
    eexists. split; [reflexivity | ].
    rewrite <- firstn_map. apply NoDup_firstn.
    rewrite map_app, map_rev, map_map. exact Hnd.
Qed.

Lemma ids_stay_distinct_over_conversions_witness :
  let data := VObj [("result", VNum (Number "279"));
                    ("rate", VNum (Number "279"));
                    ("fetchedAt", VStr "T1")] in
  let cs := [mkConversion "USD" "PKR" "1" "id-1" 200 data;
             mkConversion "USD" "PKR" "2" "id-2" 200 data] in
  exists items,
    history (app (run None (List.concat (map convert_actions cs))
                    (mount None (VArr [VObj [("id", VStr "id-0")]]))))
    = VArr items
    /\ NoDup (map (field "id") items).
Proof.
  cbv zeta.
  apply (ids_stay_distinct_over_conversions None
           (mount None (VArr [VObj [("id", VStr "id-0")]]))
           [VObj [("id", VStr "id-0")]]);
    try reflexivity.
  cbn. repeat constructor; cbn; intuition discriminate.
Defined.

(** * The derived currency list *)

Section Sorting.

Context {A : Type}.
Variable cmp : A -> A -> Z.

Lemma insert_by_perm (x : A) (l : list A) :
  Permutation (insert_by cmp x l) (x :: l).
Proof.
  induction l as [ | y l IH]; cbn; [reflexivity | ].
  destruct (cmp x y <=? 0); [reflexivity | ].
  rewrite IH. apply perm_swap.
Qed.

Lemma sort_by_perm (l : list A) : Permutation (sort_by cmp l) l.
Proof.
  induction l as [ | x l IH]; cbn; [reflexivity | ].
  rewrite insert_by_perm. now constructor.
Qed.

Hypothesis cmp_total : forall a b, cmp a b <= 0 \/ cmp b a <= 0.
Hypothesis cmp_trans :
  forall a b c, cmp a b <= 0 -> cmp b c <= 0 -> cmp a c <= 0.

Lemma insert_by_sorted (x : A) (l : list A) :
  StronglySorted (fun a b => cmp a b <= 0) l ->
  StronglySorted (fun a b => cmp a b <= 0) (insert_by cmp x l).
Proof.
  induction 1 as [ | y l Hs IH Hy]; cbn.
  - repeat constructor.
  - destruct (Z.leb_spec (cmp x y) 0) as [Hxy | Hxy].
    + constructor; [now constructor | ].
      constructor; [exact Hxy | ].
      rewrite Forall_forall in *. intros z Hz.
      exact (cmp_trans _ _ _ Hxy (Hy z Hz)).
    + constructor; [exact IH | ].
      assert (Hyx : cmp y x <= 0) by (destruct (cmp_total x y); [lia | easy]).
      rewrite Forall_forall in *. intros z Hz.
      apply (Permutation_in _ (insert_by_perm x l)) in Hz.
      destruct Hz as [<- | Hz]; [exact Hyx | now apply Hy].
Qed.

Lemma sort_by_sorted (l : list A) :
  StronglySorted (fun a b => cmp a b <= 0) (sort_by cmp l).
Proof.
  induction l as [ | x l IH]; cbn; [constructor | ].
  now apply insert_by_sorted.
Qed.

End Sorting.

Lemma filter_all {A} (p : A -> bool) (l : list A) :
  forallb p l = true -> filter p l = l.
Proof.
  induction l as [ | x l IH]; cbn; [reflexivity | ].
  destruct (p x); [ | discriminate]. intros H. now rewrite IH.
Qed.

Lemma filter_partition_perm {A} (p : A -> bool) (l : list A) :
  Permutation (filter p l ++ filter (fun x => negb (p x)) l) l.
Proof.
  induction l as [ | x l IH]; cbn; [reflexivity | ].
  destruct (p x); cbn.
  - now constructor.
  - rewrite <- Permutation_middle. now constructor.
Qed.

(** With distinct names every field is a property of its own. *)
Lemma own_fields_distinct (fields : list (string * value)) :
  NoDup (map fst fields) -> own_fields fields = fields.
Proof.
  induction fields as [ | [k v] r IH]; cbn; [reflexivity | ].
  intros H. inversion H as [ | ? ? Hk Hr]; subst.
  rewrite (IH Hr). f_equal. apply filter_all.
  apply forallb_forall. intros [k' v'] Hin. cbn.
  destruct (String.eqb_spec k' k) as [-> | _]; [ | reflexivity].
  exfalso. apply Hk. now apply (in_map fst) in Hin.
Qed.

(** [Object.entries] lists every property once. *)
Lemma ordered_fields_perm (fields : list (string * value)) :
  NoDup (map fst fields) -> Permutation (ordered_fields fields) fields.
Proof.
  intros H. unfold ordered_fields. rewrite (own_fields_distinct _ H).
  set (p := fun kv : string * value =>
              match array_index (fst kv) with
              | Some _ => true
              | None => false
              end).
  assert (E1 : map snd
                 (flat_map (fun kv =>
                              match array_index (fst kv) with
                              | Some n => [(n, kv)]
                              | None => []
                              end) fields)
               = filter p fields).
  { induction fields as [ | kv r IH]; [reflexivity | ].
    inversion H; subst. cbn. unfold p at 1.
    destruct (array_index (fst kv)); cbn; now rewrite IH. }
  assert (E2 : filter (fun kv =>
                         match array_index (fst kv) with
                         | Some _ => false
                         | None => true
                         end) fields
               = filter (fun kv => negb (p kv)) fields).
  { apply filter_ext. intros kv. unfold p.
    now destruct (array_index (fst kv)). }
  rewrite E2.
  eapply Permutation_trans; [ | apply (filter_partition_perm p fields)].
  apply Permutation_app_tail.
  rewrite <- E1. apply Permutation_map, sort_by_perm.
Qed.

(** The [map] of line 35 throws at the first entry that is [null] or
    [undefined], and otherwise pairs every code with its [name]. *)
Lemma map_c_to_currency (entries : list (string * value)) :
  map_c (fun '(code, meta) =>
           let* name := get_field meta "name" in
           Normal (mkCurrency code name)) entries
  = if forallb (fun kv => negb (nullish (snd kv))) entries
    then Normal (map to_currency entries)
    else Throw (TypeError "Cannot read properties").
Proof.
  induction entries as [ | [k v] r IH]; [reflexivity | ].
  cbn [map_c forallb snd map]. destruct (nullish v) eqn:Hv; cbn [negb andb].
  - now rewrite (get_field_nullish _ _ Hv).
  - rewrite (get_field_field _ _ Hv). cbn [c_bind]. rewrite IH.
    destruct (forallb _ r); reflexivity.
Qed.

Lemma truthy_object (fields : list (string * value)) :
  or_else (VObj fields) (VObj []) = VObj fields.
Proof. reflexivity. Qed.

(** X13. For a catalog object (distinct codes) and a consistent
    [localeCompare], the list the selects are built from, when it is
    computed, holds exactly one [{code, name}] per currency of the catalog,
    [name] being the [name] of its record, in non-decreasing order of
    [code] under [localeCompare]. *)
Theorem currencyList_sorted_permutation
  (localeCompare : string -> string -> Z)
  (fields : list (string * value)) (list : list Currency) :
  (forall a b, localeCompare a b <= 0 \/ localeCompare b a <= 0) ->
  (forall a b c, localeCompare a b <= 0 -> localeCompare b c <= 0 ->
                 localeCompare a c <= 0) ->
  NoDup (map fst fields) ->
  currencyList localeCompare (VObj fields) = Normal list ->
  StronglySorted (fun a b => localeCompare (code a) (code b) <= 0) list
  /\ Permutation list (map to_currency fields)
  /\ Permutation (map code list) (map fst fields)
  /\ List.length list = List.length fields.
Proof.
  intros Htot Htrans Hnd H.
  unfold currencyList in H. rewrite truthy_object in H.
  cbn [Object_entries c_bind] in H. rewrite map_c_to_currency in H.
  destruct (forallb _ (ordered_fields fields)); [ | discriminate H].
  cbn [c_bind] in H. injection H as <-.
  assert (P : Permutation
                (sort_by (fun a b => localeCompare (code a) (code b))
                         (map to_currency (ordered_fields fields)))
                (map to_currency fields)).
  { rewrite sort_by_perm. apply Permutation_map.
    now apply ordered_fields_perm. }
  split; [ | split; [exact P | split]].
  - apply sort_by_sorted; intros; eauto.
  - rewrite (Permutation_map code P), map_map. cbn.
    now rewrite map_ext with (g := fst) by reflexivity.
  - rewrite (Permutation_length P). apply length_map.
Qed.

(** Ordering by code point is a consistent comparator. *)
Lemma compare_code_points_total (a b : string) :
  compare_code_points a b <= 0 \/ compare_code_points b a <= 0.
Proof.
  unfold compare_code_points. rewrite (String.compare_antisym a b).
  destruct (String.compare b a); cbn; lia.
Qed.

Lemma string_compare_le_trans (a : string) :
  forall b c,
    String.compare a b <> Gt -> String.compare b c <> Gt ->
    String.compare a c <> Gt.
Proof.
  induction a as [ | x a IH]; intros [ | y b] [ | z c]; cbn;
    try congruence.
  unfold Ascii.compare.
  destruct (N.compare_spec (N_of_ascii x) (N_of_ascii y)) as [E1 | L1 | G1];
    destruct (N.compare_spec (N_of_ascii y) (N_of_ascii z)) as [E2 | L2 | G2];
    destruct (N.compare_spec (N_of_ascii x) (N_of_ascii z)) as [E3 | L3 | G3];
    try congruence; try lia.
  apply IH.
Qed.

Lemma compare_code_points_trans (a b c : string) :
  compare_code_points a b <= 0 -> compare_code_points b c <= 0 ->
  compare_code_points a c <= 0.
Proof.
  unfold compare_code_points. intros H1 H2.
  assert (G : String.compare a c <> Gt).
  { apply (string_compare_le_trans a b c).
    - destruct (String.compare a b); [discriminate | discriminate | lia].
    - destruct (String.compare b c); [discriminate | discriminate | lia]. }
  destruct (String.compare a c); [lia | lia | congruence].
Qed.

Lemma currencyList_sorted_permutation_witness :
  let catalog :=
    [("USD", VObj [("name", VStr "US Dollar")]);
     ("PKR", VObj [("name", VStr "Pakistani Rupee")]);
     ("EUR", VObj [("name", VStr "Euro")])] in
  let list :=
    [mkCurrency "EUR" (VStr "Euro");
     mkCurrency "PKR" (VStr "Pakistani Rupee");
     mkCurrency "USD" (VStr "US Dollar")] in
  currencyList compare_code_points (VObj catalog) = Normal list
  /\ Permutation (map code list) (map fst catalog).
Proof.
  cbv zeta. split; [vm_compute; reflexivity | ].
  refine (proj1 (proj2 (proj2
    (currencyList_sorted_permutation compare_code_points
       [("USD", VObj [("name", VStr "US Dollar")]);
        ("PKR", VObj [("name", VStr "Pakistani Rupee")]);
        ("EUR", VObj [("name", VStr "Euro")])]
       [mkCurrency "EUR" (VStr "Euro");
        mkCurrency "PKR" (VStr "Pakistani Rupee");
        mkCurrency "USD" (VStr "US Dollar")]
       compare_code_points_total compare_code_points_trans _ _)))).
  - cbn. repeat constructor; cbn; intuition discriminate.
  - vm_compute. reflexivity.
Defined.

(** X14. The list is computed unless some currency of the catalog object
    is [null] or [undefined]: then reading its [name] throws, and with it
    the render. *)
Theorem currencyList_throws_on_null_entry
  (localeCompare : string -> string -> Z)
  (fields : list (string * value)) :
  NoDup (map fst fields) ->
  ((exists e, currencyList localeCompare (VObj fields) = Throw e)
   <-> exists k v, In (k, v) fields /\ nullish v = true)
  /\ ((exists e, currencyList localeCompare (VObj fields) = Throw e) ->
      forall s, currencies s = VObj fields ->
                exists e, App_render localeCompare s = Throw e).
Proof.
  intros Hnd.
  assert (Hin : forall kv, In kv (ordered_fields fields) <-> In kv fields).
  { intros kv. pose proof (ordered_fields_perm fields Hnd) as P. split.
    - apply (Permutation_in _ P).
    - apply (Permutation_in _ (Permutation_sym P)). }
  assert (E : currencyList localeCompare (VObj fields)
              = if forallb (fun kv => negb (nullish (snd kv)))
                           (ordered_fields fields)
                then Normal (sort_by
                               (fun a b => localeCompare (code a) (code b))
                               (map to_currency (ordered_fields fields)))
                else Throw (TypeError "Cannot read properties")).
  { unfold currencyList. rewrite truthy_object.
    cbn [Object_entries c_bind]. rewrite map_c_to_currency.
    destruct (forallb _ _); reflexivity. }
  split; [split | ].
  - intros [e He]. rewrite E in He.
    destruct (forallb _ _) eqn:F; [discriminate He | ].
    assert (X : existsb (fun kv => nullish (snd kv)) (ordered_fields fields)
                = true).
    { clear -F. induction (ordered_fields fields) as [ | kv r IH];
        [discriminate F | ].
      cbn in *. destruct (nullish (snd kv)); [reflexivity | ].
      cbn in *. now apply IH. }
    apply existsb_exists in X. destruct X as ([k v] & Hk & Hv).
    exists k, v. split; [now apply Hin | exact Hv].
  - intros (k & v & Hk & Hv). rewrite E.
    destruct (forallb _ _) eqn:F; [ | eauto].
    rewrite forallb_forall in F.
    specialize (F (k, v) (proj2 (Hin (k, v)) Hk)). cbn in F.
    rewrite Hv in F. discriminate F.
  - intros [e He] s Hs. unfold App_render, App. rewrite Hs, He.
    eexists. reflexivity.
Qed.

Lemma currencyList_throws_on_null_entry_witness :
  exists e,
    App_render compare_code_points
      (set_currencies (VObj [("USD", VNull)]) (initial_state (VArr [])))
    = Throw e.
Proof.
  destruct (currencyList_throws_on_null_entry compare_code_points
              [("USD", VNull)]) as [[_ T1] T2].
  - repeat constructor. cbn. intuition.
  - apply T2; [ | reflexivity].
    apply T1. exists "USD", VNull. split; [now left | reflexivity].
Defined.

(** * What the render does with the state *)

Lemma toLocaleString_nullish (v : value) :
  nullish v = true -> toLocaleString_ok v = false.
Proof. destruct v; cbn; congruence. Qed.

Lemma render_row_ok (h : value) :
  row_ok h = true ->
  exists row,
    render_row h = Normal row
    /\ forallb child_ok (row_children row) = true.
Proof.
  unfold row_ok, render_row. intros H.
  apply andb_true_iff in H. destruct H as [H Hch].
  apply andb_true_iff in H. destruct H as [H Hid].
  apply andb_true_iff in H. destruct H as [H Hat].
  apply andb_true_iff in H. destruct H as [Hn Hres].
  apply negb_true_iff in Hn.
  rewrite !(get_field_field _ _ Hn). cbn [c_bind].
  unfold invoke_toLocaleString, new_Date, coerce_key.
  rewrite Hres, Hat, Hid. cbn [c_bind].
  eexists. split; [reflexivity | exact Hch].
Qed.

Lemma render_row_throws (h : value) :
  toLocaleString_ok (field "result" h) = false ->
  exists e, render_row h = Throw e.
Proof.
  unfold render_row. intros H.
  destruct (nullish h) eqn:Hn.
  - rewrite (get_field_nullish _ _ Hn). cbn. eauto.
  - rewrite !(get_field_field _ _ Hn). cbn [c_bind].
    unfold invoke_toLocaleString. rewrite H. cbn. eauto.
Qed.

Lemma map_c_render_row_ok (items : list value) :
  forallb row_ok items = true ->
  exists rows,
    map_c render_row items = Normal rows
    /\ forallb child_ok (flat_map row_children rows) = true.
Proof.
  induction items as [ | h items IH]; cbn [map_c forallb].
  - intros _. exists []. split; reflexivity.
  - intros H. apply andb_true_iff in H. destruct H as [Hh Hi].
    destruct (render_row_ok h Hh) as (row & -> & Hrow).
    destruct (IH Hi) as (rows & -> & Hrows). cbn [c_bind].
    exists (row :: rows). split; [reflexivity | ].
    cbn [flat_map]. rewrite forallb_app, Hrow, Hrows. reflexivity.
Qed.

Lemma history_panel_ok (items : list value) :
  forallb row_ok items = true ->
  exists v,
    history_panel (VArr items) = Normal v
    /\ forallb child_ok
         match v with
         | Some rows => flat_map row_children rows
         | None => []
         end = true.
Proof.
  intros H. unfold history_panel. cbn [length_is_zero c_bind].
  destruct items as [ | h items]; cbn [is_nil].
  - exists None. split; reflexivity.
  - cbn [map_receiver c_bind].
    destruct (map_c_render_row_ok _ H) as (rows & -> & Hrows).
    cbn [c_bind]. exists (Some rows). split; [reflexivity | exact Hrows].
Qed.

Lemma history_panel_throws (h : value) (items : list value) :
  toLocaleString_ok (field "result" h) = false ->
  exists e, history_panel (VArr (h :: items)) = Throw e.
Proof.
  intros H. unfold history_panel. cbn.
  destruct (render_row_throws h H) as [e ->]. cbn. eauto.
Qed.

Lemma forallb_perm {A} (p : A -> bool) (l l' : list A) :
  Permutation l l' -> forallb p l' = true -> forallb p l = true.
Proof.
  intros P H. rewrite forallb_forall in *. intros x Hx.
  apply H. exact (Permutation_in _ P Hx).
Qed.

Lemma currencyList_ok (localeCompare : string -> string -> Z) (c : value) :
  catalog_ok c = true ->
  exists l,
    currencyList localeCompare c = Normal l
    /\ forallb child_ok (map name l) = true.
Proof.
  unfold catalog_ok, currencyList. intros H.
  destruct (Object_entries (or_else c (VObj []))) as [es | e];
    [ | discriminate H].
  apply andb_true_iff in H. destruct H as [H Hnames].
  cbn [c_bind]. rewrite map_c_to_currency, H. cbn [c_bind].
  eexists. split; [reflexivity | ].
  apply (forallb_perm _ _ (map name (map to_currency es))).
  - apply Permutation_map, sort_by_perm.
  - rewrite map_map. clear -Hnames.
    induction es as [ | kv es IH]; [reflexivity | ].
    cbn [forallb map] in *. apply andb_true_iff in Hnames.
    destruct Hnames as [H1 H2]. apply andb_true_iff.
    split; [exact H1 | exact (IH H2)].
Qed.

Lemma result_panel_ok (s : AppState) :
  result s = VNull \/ toLocaleString_ok (result s) = true ->
  child_ok (rate s) = true ->
  exists p,
    result_panel s = Normal p
    /\ forallb child_ok
         match p with
         | Some p => [shown_rate p]
         | None => []
         end = true.
Proof.
  unfold result_panel, invoke_toLocaleString. intros [H | H] Hrate; rewrite H.
  - rewrite andb_false_r. exists None. split; reflexivity.
  - destruct (not_null (rate s) && not_null (result s)); cbn [c_bind].
    + eexists. split; [reflexivity | ]. cbn. now rewrite Hrate.
    + exists None. split; reflexivity.
Qed.

Lemma renderable_renders
  (localeCompare : string -> string -> Z) (s : System) :
  renderable s -> exists v, App_render localeCompare (app s) = Normal v.
Proof.
  intros ((items & Hh & Hi) & _ & Hc & Hr & Hrate). unfold App_render, App.
  destruct (currencyList_ok localeCompare _ Hc) as (l & -> & Hl).
  destruct (result_panel_ok _ Hr Hrate) as (p & -> & Hp).
  rewrite Hh. destruct (history_panel_ok _ Hi) as (v & -> & Hv).
  cbn [c_bind]. unfold reconcile, children.
  cbn [view_options view_result view_history].
  rewrite !forallb_app, Hp, Hv.
  destruct (loadingCurrencies (app s)); [ | rewrite Hl]; cbn; eauto.
Qed.

(** X15. A 2xx response whose payload has no [result] (or a [null] one)
    brings the component down: it is taken as a success, its entry goes
    to the front of the log, and the next render throws, since line 151
    calls [toLocaleString] on that entry's missing [result]. *)
Theorem render_throws_after_response_without_result
  (localeCompare : string -> string -> Z)
  (r : Render) (uuid : string) (status : Z) (data : value)
  (items : list value) (s : AppState) :
  status_ok status = true ->
  nullish data = false ->
  nullish (field "result" data) = true ->
  spread (r_history r) = Normal items ->
  let done := onConvert_settle r uuid (HttpResponse status data) s in
  effects_of done = []
  /\ exists e, App_render localeCompare (state_of done) = Throw e.
Proof.
  intros Hs Hd Hres Hh. cbv zeta.
  rewrite (onConvert_settle_success r uuid status data items s Hs Hd Hh).
  cbn [effects_of state_of]. split; [reflexivity | ].
  unfold App_render, App.
  destruct (currencyList localeCompare _) as [l | e]; [ | cbn; eauto].
  cbn [c_bind].
  destruct (result_panel _) as [p | e]; [ | cbn; eauto].
  cbn [c_bind history set_loading set_history]. rewrite firstn_cons.
  destruct (history_panel_throws
              (make_record uuid r (field "result" data) (field "rate" data)
                 (field "fetchedAt" data))
              (firstn 49 items)) as [e ->]; [ | cbn; eauto].
  cbn. exact (toLocaleString_nullish _ Hres).
Qed.

Lemma render_throws_after_response_without_result_witness :
  let s := initial_state (VArr []) in
  let done :=
    onConvert_settle (render s) "id-1" (HttpResponse 200 (VObj [])) s in
  exists e, App_render compare_code_points (state_of done) = Throw e.
Proof.
  cbv zeta.
  exact (proj2 (render_throws_after_response_without_result
                  compare_code_points (render (initial_state (VArr [])))
                  "id-1" 200 (VObj []) [] (initial_state (VArr []))
                  eq_refl eq_refl eq_refl eq_refl)).
Defined.

Lemma or_else_again (d : value) :
  or_else (or_else d (VObj [])) (VObj []) = or_else d (VObj []).
Proof. unfold or_else. destruct (truthy d) eqn:E; [now rewrite E | reflexivity]. Qed.

Lemma forallb_firstn {A} (p : A -> bool) (n : nat) (l : list A) :
  forallb p l = true -> forallb p (firstn n l) = true.
Proof.
  intros H. rewrite forallb_forall in *. intros x Hx.
  apply H. exact (firstn_In _ _ _ Hx).
Qed.

Lemma step_renderable (env : option string) (a : Action) (s : System) :
  renderable s -> action_tame a = true -> renderable (step env a s).
Proof.
  intros (Hh & Hf & Hc & Hr & Hrate) Ht.
  destruct a; cbn [step]; unfold renderable.
  - cbn. repeat split; assumption.
  - cbn. repeat split; assumption.
  - cbn. repeat split; assumption.
  - cbn. repeat split; try assumption. now left.
  - (* Submit *)
    unfold after. rewrite onConvert_submit_cases.
    destruct (amount_accepted _); cbn; repeat split; try assumption.
    + apply Forall_app. split; [assumption | ]. constructor; [ | constructor].
      exact Hh.
    + now left.
  - (* Clear *)
    cbn. repeat split; try assumption. exists []. now split.
  - (* ConvertSettles *)
    destruct (nth_error (inflight s) k) as [r | ] eqn:Hk;
      [ | repeat split; assumption].
    assert (Hr' : exists items,
               r_history r = VArr items /\ forallb row_ok items = true).
    { rewrite Forall_forall in Hf. apply Hf. now apply nth_error_In in Hk. }
    assert (Hf' : Forall (fun r => exists items,
                            r_history r = VArr items
                            /\ forallb row_ok items = true)
                    (remove_nth k (inflight s))).
    { clear -Hf. revert k. induction Hf as [ | x l Hx Hl IH]; intros k.
      - destruct k; constructor.
      - destruct k; cbn; [exact Hl | constructor; [exact Hx | apply IH]]. }
    unfold after.
    destruct (onConvert_settle_cases r uuid o (app s))
      as [(e & ->) | [(st & d & items & -> & Hs & Hd & Hsp & ->)
                     | (st & d & e & _ & _ & _ & Hsp & _)]].
    + cbn. repeat split; assumption.
    + destruct Hr' as (items' & E & Hi). rewrite E in Hsp.
      cbn in Hsp. injection Hsp as <-.
      cbn [action_tame response_tame] in Ht. rewrite Hs, Hd in Ht.
      cbn in Ht. apply andb_true_iff in Ht. destruct Ht as [Ht Ht3].
      apply andb_true_iff in Ht. destruct Ht as [Ht1 Ht2].
      cbn [app history result rate currencies set_loading set_history
           set_rate set_result inflight].
      repeat split; try assumption.
      * eexists. split; [reflexivity | ].
        apply forallb_firstn. cbn [forallb]. rewrite Hi, andb_true_r.
        unfold row_ok. cbn. now rewrite Ht1, Ht2, Ht3.
      * now right.
    + destruct Hr' as (items' & E & _). rewrite E in Hsp. discriminate Hsp.
  - (* CatalogSettles *)
    destruct (catalog_pending s); [ | repeat split; assumption].
    unfold after.
    destruct (fetchCurrencies_settle_cases (cancelled s) o (app s))
      as [(e & ->) | [(_ & ->) | (st & p & _ & -> & Hs & Hp & ->)]].
    + destruct (cancelled s); cbn; repeat split; assumption.
    + cbn. repeat split; assumption.
    + cbn [action_tame catalog_tame] in Ht. rewrite Hs, Hp in Ht.
      cbn in Ht. cbn. repeat split; try assumption.
      unfold catalog_ok in *. now rewrite or_else_again.
  - cbn. repeat split; assumption.
Qed.

(** X16. Started from a log of well-formed entries (the empty log of a
    first visit among them), [<App />] can always be rendered as long as
    the service behaves: every convert request either fails or answers
    with a [result] that can be formatted, a [rate] React takes as a child
    and a [fetchedAt] a date can be made of, and the catalog request either
    fails or answers with a catalog without [null] entries whose names
    React takes as children. Well-formed is more than formattable: the
    [id] of an entry must convert to a string for the key, and its
    [amount], [from], [to] and [rate] must be children React takes. No
    order of events, overlapping submissions included, leads to a render
    that throws, in [App] or in React. *)
Theorem render_never_throws_with_tame_service
  (localeCompare : string -> string -> Z) (env : option string)
  (stored : list value) (acts : list Action) :
  forallb row_ok stored = true ->
  forallb action_tame acts = true ->
  exists v,
    App_render localeCompare (app (run env acts (mount env (VArr stored))))
    = Normal v.
Proof.
  intros Hst Hacts. apply renderable_renders.
  assert (G : forall s,
             renderable s -> renderable (run env acts s)).
  { induction acts as [ | a acts IH]; intros s Hs; [exact Hs | ].
    cbn [forallb] in Hacts. apply andb_true_iff in Hacts.
    destruct Hacts as [Ha Hacts].
    cbn [run fold_left]. apply (IH Hacts).
    now apply step_renderable. }
  apply G. unfold renderable. cbn. repeat split.
  - exists stored. now split.
  - constructor.
  - now left.
Qed.

Lemma render_never_throws_with_tame_service_witness :
  let data := VObj [("result", VNum (Number "2790"));
                    ("rate", VNum (Number "279"));
                    ("fetchedAt", VStr "T1")] in
  exists v,
    App_render compare_code_points
      (app (run None [CatalogSettles (HttpResponse 500 VNull); Submit;
                      ConvertSettles 0 "id-1" (HttpResponse 200 data); Swap]
              (mount None (VArr []))))
    = Normal v.
Proof.
  cbv zeta.
  apply (render_never_throws_with_tame_service compare_code_points None []);
    reflexivity.
Defined.
